(** * crypto_strategy: the synchronisation and signal pipeline, embedded and verified

    A shallow embedding of the parts of the repository that carry the
    specification's testable properties:

    - [Date]          date strings and [datetime] arithmetic;
    - [Py]            floats, values and pandas-like frames shared by all components;
    - [Base], [BNF], [Turtle], [CoiledSpring]
                      the three strategy evaluators ([src/strategies/*.py]);
    - [Database]      [DatabaseManager.get_missing_dates] and [save_stock_data];
    - [Limiter]       [RateLimiter] and the admission protocol of
                      [APIQueueManager._process_request];
    - [Validator]     [CryptoDataValidator] and [validate_price_data];
    - [Scenario]      the concrete series, rows and limiters the statements use;
    - [Screener]      the per-symbol loop body of [run_screening];
    - [FloatOrder], [Report]
                      vocabulary for the statements on windows and reports.

    The properties follow the models, component by component.

    Python floats are IEEE binary64 numbers and are modelled by Rocq's primitive
    floats, so comparisons against NaN, infinities and the rounding of literals
    such as [0.05] are those of the running program.  Python integers are [Z]. *)

From Stdlib Require Import ZArith List Bool Lia.
From Stdlib Require Import PrimFloat SpecFloat FloatOps FloatAxioms.
From stdpp Require Import gmap strings list.

Open Scope Z_scope.

(** A decimal literal such as [0.05] denotes the nearest binary64 value, as it
    does in Python. *)
#[global] Set Warnings "-inexact-float".

(* ===================================================================== *)
(** * Calendar dates                                                      *)
(* ===================================================================== *)

(** A well-formed ['%Y-%m-%d'] date string is modelled by the triple it
    spells; a [datetime] at midnight by its proleptic Gregorian ordinal
    ([date.toordinal()], day 1 is 0001-01-01), on which [timedelta(days=n)]
    is integer addition.  Python's bounds on the year (1 to 9999) are not
    modelled. *)

Module Date.

Record ymd := YMD { year : Z; month : Z; day : Z }.

(** [datetime.strptime(s, '%Y-%m-%d')] *)
Definition strptime (s : ymd) : Z :=
  let y := if (month s <=? 2) then year s - 1 else year s in
  let era := y / 400 in
  let yoe := y - era * 400 in
  let mp := if (2 <? month s) then month s - 3 else month s + 9 in
  let doy := (153 * mp + 2) / 5 + day s - 1 in
  let doe := yoe * 365 + yoe / 4 - yoe / 100 + doy in
  era * 146097 + doe - 305.

(** [dt.strftime('%Y-%m-%d')] *)
Definition strftime (n : Z) : ymd :=
  let z := n + 305 in
  let era := z / 146097 in
  let doe := z - era * 146097 in
  let yoe := (doe - doe / 1460 + doe / 36524 - doe / 146096) / 365 in
  let y := yoe + era * 400 in
  let doy := doe - (365 * yoe + yoe / 4 - yoe / 100) in
  let mp := (5 * doy + 2) / 153 in
  let d := doy - (153 * mp + 2) / 5 + 1 in
  let m := if (mp <? 10) then mp + 3 else mp - 9 in
  YMD (if (m <=? 2) then y + 1 else y) m d.

(** Order of the strings (zero-padded, so lexicographic on the fields); this
    is the order SQLite's [MAX(date)] uses on the [TEXT] column. *)
Definition leb (a b : ymd) : bool :=
  (year a <? year b)
  || ((year a =? year b)
      && ((month a <? month b) || ((month a =? month b) && (day a <=? day b)))).

Definition eqb (a b : ymd) : bool :=
  (year a =? year b) && (month a =? month b) && (day a =? day b).

End Date.

(* ===================================================================== *)
(** * Python and pandas primitives                                        *)
(* ===================================================================== *)

Module Py.

(** ** Floats *)

Notation "x >? y" := (PrimFloat.ltb y x) (at level 70, no associativity) : float_scope.
Notation "x >=? y" := (PrimFloat.leb y x) (at level 70, no associativity) : float_scope.

Definition nan : float := PrimFloat.nan.

(** [pd.isna] / [math.isnan] on a float: NaN is the only value that differs
    from itself. *)
Definition isnan (x : float) : bool := negb (x =? x)%float.

(** [int(x)] on a float: truncation towards zero; NaN raises [ValueError] and
    an infinity raises [OverflowError], both rendered as [None]. *)
Definition int_of_float (x : float) : option Z :=
  match Prim2SF x with
  | S754_zero _ => Some 0
  | S754_infinity _ => None
  | S754_nan => None
  | S754_finite s m e =>
      let mag := if (0 <=? e)%Z then Z.pos m * 2 ^ e else Z.pos m / 2 ^ (- e) in
      Some (if s then - mag else mag)
  end.

(** [float(n)] for an integer of moderate size. *)
Definition float_of_Z (n : Z) : float :=
  match n with
  | Z0 => 0%float
  | Zpos p => SF2Prim (S754_finite false p 0)
  | Zneg p => SF2Prim (S754_finite true p 0)
  end.

Definition fmax (a b : float) : float := if (a <? b)%float then b else a.
Definition fmin (a b : float) : float := if (b <? a)%float then b else a.

(** ** Dynamically typed cell values and columns *)

Inductive value :=
| Num (f : float)
| Bool (b : bool)
| Str (s : string)
| Time (day : Z).   (* a [pd.Timestamp] at midnight, by its ordinal *)

(** Numeric reading of a value; a string in arithmetic raises [TypeError]. *)
Definition to_float (v : value) : option float :=
  match v with
  | Num f => Some f
  | Bool b => Some (if b then 1%float else 0%float)
  | Str _ => None
  | Time _ => None
  end.

(** [v.strftime('%Y-%m-%d')]; only timestamps have the method. *)
Definition strftime (v : value) : option Date.ymd :=
  match v with
  | Time d => Some (Date.strftime d)
  | _ => None
  end.

(** Python truthiness ([if v:]).  NaN is truthy, zero is not. *)
Definition truthy (v : value) : bool :=
  match v with
  | Num f => negb (f =? 0)%float
  | Bool b => b
  | Str s => negb (String.eqb s "")
  | Time _ => true
  end.

(** [pd.isna(v)]; the argument [None] (an absent key read with [.get]) is
    missing too. *)
Definition isna (v : option value) : bool :=
  match v with
  | None => true
  | Some (Num f) => isnan f
  | Some _ => false
  end.

Inductive column :=
| FloatCol (l : list float)
| BoolCol (l : list bool)
| StrCol (l : list string)
| TimeCol (l : list Z).

Definition col_length (c : column) : nat :=
  match c with
  | FloatCol l => length l
  | BoolCol l => length l
  | StrCol l => length l
  | TimeCol l => length l
  end.

Definition col_last (c : column) : option value :=
  match c with
  | FloatCol l => Num <$> last l
  | BoolCol l => Bool <$> last l
  | StrCol l => Str <$> last l
  | TimeCol l => Time <$> last l
  end.

(** A column read for arithmetic: booleans coerce to 0/1, strings raise. *)
Definition col_floats (c : column) : option (list float) :=
  match c with
  | FloatCol l => Some l
  | BoolCol l => Some (map (fun b : bool => if b then 1%float else 0%float) l)
  | StrCol _ => None
  | TimeCol _ => None
  end.

(** ** Frames

    A [pd.DataFrame]: its number of rows and its named columns.  Every
    column of a frame built by the pipeline has [nrows] cells. *)

Record frame := Frame { nrows : nat; columns : gmap string column }.

(** [df.empty]: no rows or no columns. *)
Definition empty (df : frame) : bool :=
  (nrows df =? 0)%nat || bool_decide (columns df = ∅).

Definition has_column (df : frame) (c : string) : bool :=
  bool_decide (is_Some (columns df !! c)).

(** [df[c]] as numbers; [None] stands for the [KeyError]/[TypeError]. *)
Definition get (df : frame) (c : string) : option (list float) :=
  columns df !! c ≫= col_floats.

(** [df[c] = col], in place. *)
Definition set (df : frame) (c : string) (col : column) : frame :=
  Frame (nrows df) (<[c := col]> (columns df)).

(** A row ([pd.Series] indexed by column name). *)
Definition row := gmap string value.

(** [df.iloc[-1]] *)
Definition last_row (df : frame) : row := omap col_last (columns df).

(** [row[c]] as a number. *)
Definition item (r : row) (c : string) : option float := r !! c ≫= to_float.

(** ** Column kernels of pandas and TA-Lib

    Element-wise operations, [shift] and rolling maxima and minima are exact
    on floats.  The averaging kernels of pandas (rolling mean, sum and
    standard deviation) follow the documented formulas with left-to-right
    summation. *)

Definition fsum (l : list float) : float := fold_left PrimFloat.add l 0%float.

Definition fabs (x : float) : float := PrimFloat.abs x.

(** [s.shift(k)] *)
Definition shift (k : nat) (l : list float) : list float :=
  replicate (Nat.min k (length l)) nan ++ take (length l - k) l.

(** [s.rolling(window=n).agg()] with pandas' default [min_periods = n]: the
    cell is NaN until [n] observations are available and whenever the window
    holds a NaN. *)
Definition rolling (agg : list float -> float) (n : nat) (l : list float) : list float :=
  map (fun i : nat =>
         let w := take n (drop (S i - n) l) in
         if (n <=? S i)%nat && forallb (fun x => negb (isnan x)) w
         then agg w else nan)
      (seq 0 (length l)).

Definition window_max (w : list float) : float :=
  match w with [] => nan | x :: t => fold_left fmax t x end.
Definition window_min (w : list float) : float :=
  match w with [] => nan | x :: t => fold_left fmin t x end.
Definition window_mean (w : list float) : float :=
  (fsum w / float_of_Z (Z.of_nat (length w)))%float.
(** Sample standard deviation ([ddof = 1]). *)
Definition window_std (w : list float) : float :=
  let m := window_mean w in
  let ss := fsum (map (fun x => ((x - m) * (x - m))%float) w) in
  PrimFloat.sqrt (ss / float_of_Z (Z.of_nat (length w) - 1))%float.

Definition rolling_max := rolling window_max.
Definition rolling_min := rolling window_min.
Definition rolling_mean := rolling window_mean.
Definition rolling_sum := rolling fsum.
Definition rolling_std := rolling window_std.

(** ** TA-Lib kernels

    A TA-Lib function called through its Python wrapper raises when its
    inputs differ in length, when no bar has all inputs non-NaN
    ([inputs are all NaN]) and when the C kernel rejects [timeperiod]
    (outside 2..100000, [TA_BAD_PARAM]).  Otherwise the kernel starts at the
    first bar whose inputs are all non-NaN, and the cells before its first
    output are NaN.  [None] stands for the exception. *)

(** [check_begidx1]: the first cell that is not NaN. *)
Fixpoint begidx (real : list float) : option nat :=
  match real with
  | [] => None
  | x :: t => if isnan x then S <$> begidx t else Some 0%nat
  end.

(** [check_begidx3] *)
Fixpoint begidx3 (a b c : list float) : option nat :=
  match a, b, c with
  | x :: a', y :: b', z :: c' =>
      if isnan x || isnan y || isnan z then S <$> begidx3 a' b' c' else Some 0%nat
  | _, _, _ => None
  end.

Definition timeperiod_ok (timeperiod : nat) : bool :=
  (2 <=? timeperiod)%nat && (Z.of_nat timeperiod <=? 100000).

(** The wrapper's output array of [len] cells: NaN up to [lookback], then the
    kernel's output. *)
Definition padded (len lookback : nat) (out : list float) : list float :=
  replicate (Nat.min lookback len) nan ++ out.

(** [TA_SMA]: a running total, to which the entering cell is added and from
    which the leaving cell is subtracted. *)
Fixpoint sma_from (n total : float) (trailing rest : list float) : list float :=
  match rest, trailing with
  | x :: rest', t :: trailing' =>
      let total := (total + x)%float in
      (total / n)%float :: sma_from n (total - t)%float trailing' rest'
  | _, _ => []
  end.

(** [talib.SMA] *)
Definition SMA (real : list float) (timeperiod : nat) : option (list float) :=
  if negb (timeperiod_ok timeperiod) then None
  else
    b ← begidx real;
    let l := drop b real in
    Some (padded (length real) (b + (timeperiod - 1))
            (sma_from (float_of_Z (Z.of_nat timeperiod))
                      (fsum (take (timeperiod - 1) l)) l (drop (timeperiod - 1) l))).

(** [TA_TRANGE] on one bar, given the previous close. *)
Definition true_range (high low prev_close : float) : float :=
  let greatest := (high - low)%float in
  let val2 := fabs (prev_close - high) in
  let greatest := if (val2 >? greatest)%float then val2 else greatest in
  let val3 := fabs (prev_close - low) in
  if (val3 >? greatest)%float then val3 else greatest.

(** [talib.TRANGE]: the first bar the kernel sees has no previous close and
    gets no output. *)
Definition TRANGE (high low close : list float) : option (list float) :=
  if negb ((length high =? length low)%nat && (length high =? length close)%nat) then None
  else
    b ← begidx3 high low close;
    Some (padded (length high) (S b)
            (zip_with (fun hl prev_close => true_range hl.1 hl.2 prev_close)
                      (drop (S b) (zip high low)) (drop b close))).

(** [TA_EMA]: seeded with the mean of the first [n] cells, then smoothed
    with factor [2 / (n + 1)]. *)
Fixpoint ema_from (k prev : float) (l : list float) : list float :=
  match l with
  | [] => []
  | x :: t => let e := ((x - prev) * k + prev)%float in e :: ema_from k e t
  end.

(** [talib.EMA] *)
Definition EMA (real : list float) (timeperiod : nat) : option (list float) :=
  if negb (timeperiod_ok timeperiod) then None
  else
    b ← begidx real;
    let l := drop b real in
    Some (padded (length real) (b + (timeperiod - 1))
            (if (length l <? timeperiod)%nat then []
             else
               let seed := window_mean (take timeperiod l) in
               let k := (2 / float_of_Z (Z.of_nat timeperiod + 1))%float in
               seed :: ema_from k seed (drop timeperiod l))).

(** [TA_RSI]: Wilder's smoothing of gains and losses.  A change that is not
    negative (zero or NaN included) is added to the gains; the index is 0
    when gains and losses sum to less than [1e-8] in magnitude
    ([TA_IS_ZERO]). *)
Definition rsi_value (gain loss : float) : float :=
  let s := (gain + loss)%float in
  if (-0.00000001 <? s)%float && (s <? 0.00000001)%float then 0%float
  else (100 * (gain / s))%float.

Fixpoint rsi_seed (prev gain loss : float) (l : list float) : float * float * float :=
  match l with
  | [] => (prev, gain, loss)
  | x :: t =>
      let d := (x - prev)%float in
      if (d <? 0)%float then rsi_seed x gain (loss - d)%float t
      else rsi_seed x (gain + d)%float loss t
  end.

Fixpoint rsi_from (n prev gain loss : float) (l : list float) : list float :=
  match l with
  | [] => []
  | x :: t =>
      let d := (x - prev)%float in
      let loss := (loss * (n - 1))%float in
      let gain := (gain * (n - 1))%float in
      let loss := if (d <? 0)%float then (loss - d)%float else loss in
      let gain := if (d <? 0)%float then gain else (gain + d)%float in
      let loss := (loss / n)%float in
      let gain := (gain / n)%float in
      rsi_value gain loss :: rsi_from n x gain loss t
  end.

(** [talib.RSI] *)
Definition RSI (real : list float) (timeperiod : nat) : option (list float) :=
  if negb (timeperiod_ok timeperiod) then None
  else
    b ← begidx real;
    let n := float_of_Z (Z.of_nat timeperiod) in
    Some (padded (length real) (b + timeperiod)
            (match drop b real with
             | x0 :: t =>
                 if (length t <? timeperiod)%nat then []
                 else
                   let '(prev, gain, loss) := rsi_seed x0 0 0 (take timeperiod t) in
                   let loss := (loss / n)%float in
                   let gain := (gain / n)%float in
                   rsi_value gain loss :: rsi_from n prev gain loss (drop timeperiod t)
             | [] => []
             end)).

(** ** In-place frame programs

    The strategies' [calculate_indicators] bodies are sequences of
    assignments [df[c] = expr] inside one [try] block.  A statement either
    completes on the mutated frame or raises; the frame keeps every
    assignment made before the raising statement. *)

Inductive outcome := Completed | Raised.

Definition prog := frame -> frame * outcome.

Definition skip : prog := fun df => (df, Completed).

Definition seq_ (p q : prog) : prog :=
  fun df => match p df with
            | (df', Completed) => q df'
            | (df', Raised) => (df', Raised)
            end.

(** [df[c] = rhs]: the right-hand side is evaluated first. *)
Definition assign (c : string) (rhs : frame -> option column) : prog :=
  fun df => match rhs df with
            | Some col => (set df c col, Completed)
            | None => (df, Raised)
            end.

(** [if cond: body] *)
Definition when (cond : frame -> bool) (body : prog) : prog :=
  fun df => if cond df then body df else (df, Completed).

Notation "p >> q" := (seq_ p q) (at level 62, right associativity).

(** Element-wise binary operation on two numeric columns. *)
Definition map2 (f : float -> float -> float) (a b : list float) : column :=
  FloatCol (zip_with f a b).
Definition cmp2 (f : float -> float -> bool) (a b : list float) : column :=
  BoolCol (zip_with f a b).

End Py.

(* ===================================================================== *)
(** * Strategy evaluators                                                 *)
(* ===================================================================== *)

(** ** [BaseStrategy] ([src/strategies/base.py]) *)

Module Base.
Import Py.

Definition required_columns : list string :=
  ["Open"; "High"; "Low"; "Close"; "Volume"].

(** [validate_data]; [min_periods] is [self.config.get('min_periods', 50)]. *)
Definition validate_data (min_periods : option nat) (stock_data : frame) : bool :=
  if empty stock_data then false
  else if negb (forallb (has_column stock_data) required_columns) then false
  else if (nrows stock_data <? default 50%nat min_periods)%nat then false
  else true.

End Base.

(** ** [BNFStrategy] ([src/strategies/bnf.py]) *)

Module BNF.
Import Py.

Record config := Config {
  ma_period : nat;
  deviation_threshold : float;
  min_price : float;
  min_volume : float;
  lookback_days : nat;
  min_periods : option nat
}.

Definition default_config : config :=
  Config 25 (-0.20)%float 10%float 500000%float 30 (Some 30%nat).

Record scores := Scores {
  deviation_score : Z;
  volume_score : Z;
  total_score : Z
}.

Record BNFSignal := Signal {
  symbol : string;
  signal_date : Date.ymd;
  price : float;
  ma25 : float;
  deviation_rate : float;
  volume : float;
  volume_ratio : float;
  sig_deviation_score : Z;
  sig_volume_score : Z;
  sig_total_score : Z
}.

(** [_calculate_signal_score] *)
Definition _calculate_signal_score (deviation_rate volume_ratio : float) : scores :=
  let deviation_score :=
    if (deviation_rate <=? -0.25)%float then 60
    else if (deviation_rate <=? -0.23)%float then 50
    else if (deviation_rate <=? -0.21)%float then 40
    else if (deviation_rate <=? -0.20)%float then 30
    else 0 in
  let volume_score :=
    if (volume_ratio >=? 2.0)%float then 40
    else if (volume_ratio >=? 1.5)%float then 30
    else if (volume_ratio >=? 1.2)%float then 20
    else if (volume_ratio >=? 1.0)%float then 10
    else 5 in
  Scores deviation_score volume_score (deviation_score + volume_score).

(** [calculate_indicators]: the body of the [try] block. *)
Definition indicators_body (cfg : config) : prog :=
  assign "ma25" (fun df =>
    close ← get df "Close";
    Some (FloatCol (rolling_mean (ma_period cfg) close))) >>
  assign "deviation_rate" (fun df =>
    close ← get df "Close";
    ma ← get df "ma25";
    Some (map2 (fun c m => ((c - m) / m)%float) close ma)) >>
  assign "bnf_buy_signal" (fun df =>
    dev ← get df "deviation_rate";
    Some (BoolCol (map (fun d => (d <=? deviation_threshold cfg)%float) dev))) >>
  when (fun df => negb (has_column df "volume_ratio"))
    (assign "volume_20" (fun df =>
       vol ← get df "Volume";
       Some (FloatCol (rolling_mean 20 vol))) >>
     assign "volume_ratio" (fun df =>
       vol ← get df "Volume";
       v20 ← get df "volume_20";
       Some (map2 PrimFloat.div vol v20))).

(** Both the normal exit and the [except] clause [return stock_data], the
    frame the statements have been mutating. *)
Definition calculate_indicators (cfg : config) (stock_data : frame) : frame :=
  fst (indicators_body cfg stock_data).

(** [detect_signals]; [default []] is the [except] clause, reached with no
    signal appended yet. *)
Definition detect_signals (cfg : config) (symbol : string) (stock_data : frame)
  : list BNFSignal :=
  if negb (Base.validate_data (min_periods cfg) stock_data) then []
  else if (nrows stock_data <? ma_period cfg)%nat then []
  else
    let last_row := last_row stock_data in
    default [] (
      close ← item last_row "Close";
      if (close <? min_price cfg)%float then Some [] else
      vol ← item last_row "Volume";
      if (vol <? min_volume cfg)%float then Some [] else
      if isna (last_row !! "ma25") || isna (last_row !! "deviation_rate") then Some [] else
      dev ← item last_row "deviation_rate";
      if (dev <=? deviation_threshold cfg)%float then
        let volume_ratio := default (Num 1.0) (last_row !! "volume_ratio") in
        volume_ratio ←
          (if isna (Some volume_ratio) && has_column stock_data "volume_20" then
             vols ← get stock_data "Volume";
             volume_20 ← last (rolling_mean 20 vols);
             Some (if (volume_20 >? 0)%float then (vol / volume_20)%float else 1.0%float)
           else to_float volume_ratio);
        let scores := _calculate_signal_score dev volume_ratio in
        date ← last_row !! "Date" ≫= strftime;
        ma ← item last_row "ma25";
        Some [Signal symbol date close ma dev vol volume_ratio
                     (deviation_score scores) (volume_score scores) (total_score scores)]
      else Some []).

End BNF.

(** ** [TurtleStrategy] ([src/strategies/turtle.py]) *)

Module Turtle.
Import Py.

Record config := Config {
  atr_period : nat;
  atr_method : string;
  system1_entry : nat;
  system2_entry : nat;
  system1_exit : nat;
  system2_exit : nat;
  stop_loss_atr : float;
  min_price : float;
  min_volume : float;
  lookback_days : nat;
  min_periods : option nat
}.

Definition default_config : config :=
  Config 20 "sma" 20 55 10 20 2.0%float 10%float 500000%float 60 (Some 60%nat).

Record signal_data := SignalData {
  price_above_breakout_pct : float;
  sd_volume_ratio : float;
  sd_momentum_5d : float
}.

Record scores := Scores {
  breakout_score : Z;
  volume_score : Z;
  momentum_score : Z;
  total_score : Z
}.

Record TurtleSignal := Signal {
  symbol : string;
  signal_type : string;
  signal_date : Date.ymd;
  price : float;
  atr : float;
  unit_size : Z;
  stop_loss_price : float;
  breakout_high : float;
  days_in_breakout : nat;
  current_price : float;
  volume : float;
  volume_ratio : float;
  price_change_pct : float;
  momentum_5d : float;
  sig_total_score : Z;
  sig_breakout_score : Z;
  sig_volume_score : Z;
  sig_momentum_score : Z
}.

(** The three bands of [_calculate_signal_score]. *)
Definition breakout_band (price_above : float) : Z :=
  if (0 <? price_above)%float && (price_above <=? 2)%float then 40
  else if (2 <? price_above)%float && (price_above <=? 5)%float then 30
  else if (5 <? price_above)%float && (price_above <=? 10)%float then 15
  else 5.

Definition volume_band (volume_ratio : float) : Z :=
  if (volume_ratio >=? 2.0)%float then 35
  else if (volume_ratio >=? 1.5)%float then 28
  else if (volume_ratio >=? 1.2)%float then 20
  else 12.

Definition momentum_band (momentum : float) : Z :=
  if (momentum >? 0.05)%float then 25
  else if (momentum >? 0.03)%float then 20
  else if (momentum >? 0.01)%float then 15
  else if (momentum >? 0)%float then 8
  else 0.

(** [_calculate_signal_score] *)
Definition _calculate_signal_score (d : signal_data) : scores :=
  let breakout_score := breakout_band (price_above_breakout_pct d) in
  let volume_score := volume_band (sd_volume_ratio d) in
  let momentum_score := momentum_band (sd_momentum_5d d) in
  Scores breakout_score volume_score momentum_score
         (breakout_score + volume_score + momentum_score).

(** [calculate_indicators]: the body of the [try] block. *)
Definition indicators_body (cfg : config) : prog :=
  assign "atr" (fun df =>
    high ← get df "High";
    low ← get df "Low";
    close ← get df "Close";
    tr ← TRANGE high low close;
    atr ← (if String.eqb (atr_method cfg) "ema"
           then EMA tr (atr_period cfg)
           else SMA tr (atr_period cfg));
    Some (FloatCol atr)) >>
  assign "high_20" (fun df =>
    high ← get df "High"; Some (FloatCol (rolling_max (system1_entry cfg) high))) >>
  assign "low_10" (fun df =>
    low ← get df "Low"; Some (FloatCol (rolling_min (system1_exit cfg) low))) >>
  assign "high_55" (fun df =>
    high ← get df "High"; Some (FloatCol (rolling_max (system2_entry cfg) high))) >>
  assign "low_20" (fun df =>
    low ← get df "Low"; Some (FloatCol (rolling_min (system2_exit cfg) low))) >>
  assign "volume_20" (fun df =>
    vol ← get df "Volume"; Some (FloatCol (rolling_mean 20 vol))) >>
  assign "volume_ratio" (fun df =>
    vol ← get df "Volume"; v20 ← get df "volume_20";
    Some (map2 PrimFloat.div vol v20)) >>
  assign "price_change_5d" (fun df =>
    close ← get df "Close";
    Some (map2 (fun c p => ((c - p) / p)%float) close (shift 5 close))) >>
  assign "price_change_20d" (fun df =>
    close ← get df "Close";
    Some (map2 (fun c p => ((c - p) / p)%float) close (shift 20 close))) >>
  assign "rsi" (fun df =>
    close ← get df "Close"; rsi ← RSI close 14; Some (FloatCol rsi)) >>
  assign "system1_breakout" (fun df =>
    close ← get df "Close"; h ← get df "high_20";
    Some (cmp2 (fun c h => (c >? h)%float) close h)) >>
  assign "system2_breakout" (fun df =>
    close ← get df "Close"; h ← get df "high_55";
    Some (cmp2 (fun c h => (c >? h)%float) close h)).

Definition calculate_indicators (cfg : config) (stock_data : frame) : frame :=
  fst (indicators_body cfg stock_data).

(** [_create_turtle_signal]; [None] is the [except] clause. *)
Definition _create_turtle_signal (cfg : config) (symbol : string) (row : row)
    (signal_type : string) (days : nat) (account_value : float)
  : option TurtleSignal :=
  atr ← item row "atr";
  close ← item row "Close";
  unit_size ←
    (if (atr >? 0)%float then int_of_float (account_value * 0.01 / atr)%float
     else Some 0);
  let stop_loss := (close - stop_loss_atr cfg * atr)%float in
  breakout_high ←
    to_float (if String.eqb signal_type "system1_entry"
              then default (Num close) (row !! "high_20")
              else default (Num close) (row !! "high_55"));
  vr ← to_float (default (Num 1.0) (row !! "volume_ratio"));
  m5 ← to_float (default (Num 0) (row !! "price_change_5d"));
  let data :=
    SignalData
      (if (breakout_high >? 0)%float
       then ((close - breakout_high) / breakout_high * 100)%float else 0%float)
      vr m5 in
  let scores := _calculate_signal_score data in
  date ← row !! "Date" ≫= strftime;
  vol ← item row "Volume";
  pc20 ← to_float (default (Num 0) (row !! "price_change_20d"));
  Some (Signal symbol signal_type date close atr unit_size stop_loss
               breakout_high days close vol vr (pc20 * 100)%float m5
               (total_score scores) (breakout_score scores)
               (volume_score scores) (momentum_score scores)).

(** [row.get(c)] used as a condition: absent is falsy. *)
Definition flag (row : row) (c : string) : bool :=
  match row !! c with Some v => truthy v | None => false end.

(** [detect_signals] *)
Definition detect_signals (cfg : config) (symbol : string) (stock_data : frame)
    (account_value : float) : list TurtleSignal :=
  if negb (Base.validate_data (min_periods cfg) stock_data) then []
  else if (nrows stock_data <? lookback_days cfg)%nat then []
  else if negb (0 <? nrows stock_data)%nat then []
  else
    let row := last_row stock_data in
    default [] (
      close ← item row "Close";
      if (close <? min_price cfg)%float then Some [] else
      vol ← item row "Volume";
      if (vol <? min_volume cfg)%float then Some [] else
      if isna (row !! "atr") then Some [] else
      atr ← item row "atr";
      if (atr <=? 0)%float then Some [] else
      let s1 :=
        if flag row "system1_breakout" then
          option_list (_create_turtle_signal cfg symbol row "system1_entry"
                                             (system1_entry cfg) account_value)
        else [] in
      let s2 :=
        if flag row "system2_breakout" then
          option_list (_create_turtle_signal cfg symbol row "system2_entry"
                                             (system2_entry cfg) account_value)
        else [] in
      Some (s1 ++ s2)).

End Turtle.

(** ** [CoiledSpringStrategy] ([src/strategies/coiled_spring.py]) *)

Module CoiledSpring.
Import Py.

Record config := Config {
  volatility_threshold : float;
  volatility_contract_ratio : float;
  volume_contract_ratio : float;
  trend_days_threshold : float;
  trend_period : nat;
  min_price : float;
  min_volume : float;
  min_periods : option nat
}.

Definition default_config : config :=
  Config 0.3%float 0.5%float 0.55%float 60%float 120 10%float 500000%float
         (Some 120%nat).

Record scores := Scores {
  volatility_score : Z;
  trend_score : Z;
  volume_score : Z;
  total_score : Z
}.

Record CoiledSpringSignal := Signal {
  symbol : string;
  signal_date : Date.ymd;
  price : float;
  volatility_10d : float;
  volatility_60d : float;
  ma_20_ema : float;
  ma_50_sma : float;
  ma_100_sma : float;
  volume_ratio : float;
  up_trend_strength : float;
  sig_total_score : Z;
  sig_volatility_score : Z;
  sig_trend_score : Z;
  sig_volume_score : Z
}.

(** The historical-volatility points that [_calculate_signal_score] writes
    straight into [scores['total_score']]. *)
Definition history_points (volatility_60d : float) : Z :=
  if (volatility_60d >? 0.4)%float then 10
  else if (volatility_60d >? 0.3)%float then 5
  else 0.

(** [_calculate_signal_score] *)
Definition _calculate_signal_score (volatility_10d volatility_60d : float)
    (ma_alignment : bool) (up_trend_strength volume_ratio : float) : scores :=
  let volatility_score :=
    if (volatility_10d <=? 0.01)%float then 40
    else if (volatility_10d <=? 0.02)%float then 30
    else if (volatility_10d <=? 0.03)%float then 20
    else if (volatility_10d <=? 0.05)%float then 10
    else 0 in
  let trend_score :=
    (if ma_alignment then 15 else 0) +
    (if (up_trend_strength >? 0.6)%float then 15
     else if (up_trend_strength >? 0.55)%float then 10
     else if (up_trend_strength >? 0.5)%float then 5
     else 0) in
  let volume_score :=
    if (volume_ratio <=? 0.4)%float then 20
    else if (volume_ratio <=? 0.5)%float then 15
    else if (volume_ratio <=? 0.6)%float then 10
    else if (volume_ratio <=? 0.7)%float then 5
    else 0 in
  let total_score := history_points volatility_60d in
  Scores volatility_score trend_score volume_score
         (total_score + (volatility_score + trend_score + volume_score)).

(** [calculate_indicators]: the body of the [try] block. *)
Definition indicators_body (cfg : config) : prog :=
  assign "ema_20" (fun df => c ← get df "Close"; FloatCol <$> EMA c 20) >>
  assign "sma_50" (fun df => c ← get df "Close"; FloatCol <$> SMA c 50) >>
  assign "sma_100" (fun df => c ← get df "Close"; FloatCol <$> SMA c 100) >>
  assign "sd_10" (fun df => c ← get df "Close"; Some (FloatCol (rolling_std 10 c))) >>
  assign "sd_60" (fun df => c ← get df "Close"; Some (FloatCol (rolling_std 60 c))) >>
  assign "vol_10" (fun df => v ← get df "Volume"; Some (FloatCol (rolling_mean 10 v))) >>
  assign "vol_60" (fun df => v ← get df "Volume"; Some (FloatCol (rolling_mean 60 v))) >>
  assign "price_up" (fun df =>
    c ← get df "Close"; Some (cmp2 (fun c p => (c >? p)%float) c (shift 1 c))) >>
  assign "price_up_6mo_days" (fun df =>
    up ← get df "price_up"; Some (FloatCol (rolling_sum (trend_period cfg) up))) >>
  assign "high_60" (fun df => h ← get df "High"; Some (FloatCol (rolling_max 60 h))) >>
  assign "low_60" (fun df => l ← get df "Low"; Some (FloatCol (rolling_min 60 l))) >>
  assign "diff_percentage_3mo" (fun df =>
    h ← get df "high_60"; l ← get df "low_60";
    Some (map2 (fun h l => ((h - l) / h)%float) h l)) >>
  assign "volatility_check" (fun df =>
    d ← get df "diff_percentage_3mo";
    Some (BoolCol (map (fun d => (d >? volatility_threshold cfg)%float) d))) >>
  assign "price_contract" (fun df =>
    s10 ← get df "sd_10"; s60 ← get df "sd_60";
    Some (cmp2 (fun a b => (a <? b * volatility_contract_ratio cfg)%float) s10 s60)) >>
  assign "ma_alignment" (fun df =>
    e ← get df "ema_20"; s50 ← get df "sma_50"; s100 ← get df "sma_100";
    Some (BoolCol (zip_with andb
                     (zip_with (fun a b => (a >? b)%float) e s50)
                     (zip_with (fun a b => (a >? b)%float) s50 s100)))) >>
  assign "up_trend_6mo" (fun df =>
    d ← get df "price_up_6mo_days";
    Some (BoolCol (map (fun d => (d >? trend_days_threshold cfg)%float) d))) >>
  assign "vol_contract" (fun df =>
    v10 ← get df "vol_10"; v60 ← get df "vol_60";
    Some (cmp2 (fun a b => (a <? b * volume_contract_ratio cfg)%float) v10 v60)).

Definition calculate_indicators (cfg : config) (stock_data : frame) : frame :=
  fst (indicators_body cfg stock_data).

(** [row.get(c, False)] used as a condition. *)
Definition flag (row : row) (c : string) : bool :=
  match row !! c with Some v => truthy v | None => false end.

(** The five screening conditions, in the order the source tests them. *)
Definition conditions : list string :=
  ["volatility_check"; "price_contract"; "ma_alignment"; "up_trend_6mo"; "vol_contract"].

(** The part of [detect_signals] that looks at the latest row. *)
Definition check_row (cfg : config) (symbol : string) (row : row)
  : option (list CoiledSpringSignal) :=
  close ← item row "Close";
  vol ← item row "Volume";
  ema_20 ← row !! "ema_20";
  sma_50 ← row !! "sma_50";
  sma_100 ← row !! "sma_100";
  if (close <? min_price cfg)%float || (vol <? min_volume cfg)%float
     || isna (Some ema_20) || isna (Some sma_50) || isna (Some sma_100)
  then Some []
  else if flag row "volatility_check" && flag row "price_contract"
          && flag row "ma_alignment" && flag row "up_trend_6mo"
          && flag row "vol_contract"
  then
    days ← item row "price_up_6mo_days";
    let up_trend_strength := (days / float_of_Z (Z.of_nat (trend_period cfg)))%float in
    vol_10 ← item row "vol_10";
    vol_60 ← item row "vol_60";
    let volume_ratio := if (vol_60 >? 0)%float then (vol_10 / vol_60)%float else 1.0%float in
    sd_10 ← item row "sd_10";
    sd_60 ← item row "sd_60";
    ma_alignment ← row !! "ma_alignment";
    let scores :=
      _calculate_signal_score sd_10 sd_60 (truthy ma_alignment)
                              up_trend_strength volume_ratio in
    date ← row !! "Date" ≫= strftime;
    e20 ← to_float ema_20;
    s50 ← to_float sma_50;
    s100 ← to_float sma_100;
    Some [Signal symbol date close sd_10 sd_60 e20 s50 s100 volume_ratio
                 up_trend_strength (total_score scores) (volatility_score scores)
                 (trend_score scores) (volume_score scores)]
  else Some [].

(** [detect_signals] *)
Definition detect_signals (cfg : config) (symbol : string) (stock_data : frame)
  : list CoiledSpringSignal :=
  if negb (Base.validate_data (min_periods cfg) stock_data) then []
  else if (nrows stock_data <? trend_period cfg)%nat then []
  else
    let stock_data := calculate_indicators cfg stock_data in
    if negb (0 <? nrows stock_data)%nat then []
    else default [] (check_row cfg symbol (last_row stock_data)).

End CoiledSpring.

(* ===================================================================== *)
(** * Persistence store ([src/core/database.py])                          *)
(* ===================================================================== *)

Module Database.
Import Py.

(** A row of table [stock_data].  [date] and [symbol] are the two columns
    of the primary key; both are declared [TEXT] without [NOT NULL], so a row
    may hold NULL ([None]) there.  [fields] are the remaining columns. *)
Record row := Row {
  date : option Date.ymd;
  symbol : option string;
  fields : gmap string value
}.

(** The table, in insertion order. *)
Abbreviation table := (list row).

(** [WHERE date = ? AND symbol = ?]: NULL matches nothing. *)
Definition key_matches (d : Date.ymd) (s : string) (r : row) : bool :=
  match date r, symbol r with
  | Some d', Some s' => Date.eqb d' d && String.eqb s' s
  | _, _ => false
  end.

(** [DELETE FROM stock_data WHERE date = ? AND symbol = ?] *)
Definition delete (d : Date.ymd) (s : string) (db : table) : table :=
  filter (fun r => key_matches d s r = false) db.

(** The loop over [save_data.iterrows()]: a delete for every incoming row
    whose date and symbol are both present ([pd.notna]). *)
Definition delete_old (db : table) (rows : list row) : table :=
  foldl (fun db r =>
           match date r, symbol r with
           | Some d, Some s => delete d s db
           | _, _ => db
           end) db rows.

(** [PRIMARY KEY (date, symbol)]: an insert is refused when a stored row has
    the same key; SQLite never counts rows with a NULL key column as equal. *)
Definition conflicts (db : table) (r : row) : bool :=
  match date r, symbol r with
  | Some d, Some s => existsb (key_matches d s) db
  | _, _ => false
  end.

(** [to_sql(if_exists='append')]: row after row; [None] is the
    [IntegrityError]. *)
Fixpoint insert_all (db : table) (rows : list row) : option table :=
  match rows with
  | [] => Some db
  | r :: rest => if conflicts db r then None else insert_all (db ++ [r]) rest
  end.

(** [save_stock_data].  Deletes and inserts run in one transaction: when the
    insert raises, the transaction is rolled back and the exception leaves
    the method. *)
Definition save_stock_data (db : table) (stock_data : list row) : table * outcome :=
  match stock_data with
  | [] => (db, Completed)
  | _ =>
      match insert_all (delete_old db stock_data) stock_data with
      | Some db' => (db', Completed)
      | None => (db, Raised)
      end
  end.

(** [MAX] over date strings. *)
Definition max_date (ds : list Date.ymd) : option Date.ymd :=
  foldl (fun acc d =>
           match acc with
           | None => Some d
           | Some a => Some (if Date.leb a d then d else a)
           end) None ds.

(** [SELECT MAX(date) FROM stock_data WHERE symbol = ?] *)
Definition select_max_date (db : table) (s : string) : option Date.ymd :=
  max_date (omap (fun r =>
                    match symbol r with
                    | Some s' => if String.eqb s' s then date r else None
                    | None => None
                    end) db).

(** The body of the loop of [get_missing_dates] for one symbol: the fetch
    start, or [None] when the symbol is up to date ([continue]). *)
Definition update_start (latest : option Date.ymd) (end_dt start_dt : Z)
  : option Date.ymd :=
  match latest with
  | Some latest_date =>
      let latest_dt := Date.strptime latest_date in
      if (latest_dt >=? end_dt) then None
      else
        let update_start_dt := latest_dt + 1 in
        Some (if (update_start_dt <? start_dt) then Date.strftime start_dt
              else Date.strftime update_start_dt)
  | None => Some (Date.strftime start_dt)
  end.

(** [get_missing_dates] *)
Definition get_missing_dates (db : table) (symbols : list string)
    (end_date : Date.ymd) (days_back : Z) : gmap string Date.ymd :=
  let end_dt := Date.strptime end_date in
  let start_dt := end_dt - days_back in
  foldl (fun missing_dates s =>
           match update_start (select_max_date db s) end_dt start_dt with
           | Some start => <[s := start]> missing_dates
           | None => missing_dates
           end) ∅ symbols.

End Database.

(* ===================================================================== *)
(** * Rate limiter ([src/core/api_queue_manager.py])                      *)
(* ===================================================================== *)

Module Limiter.

(** Wall-clock instants ([datetime.now()]) are counted in microseconds, the
    resolution of [datetime]. *)
Definition time := Z.

Record RateLimiter := Build {
  max_requests : Z;
  time_window : Z;            (* seconds *)
  requests : list time
}.

Definition window_us (rl : RateLimiter) : Z := time_window rl * 1000000.

(** [can_make_request]: prunes expired stamps, then compares the count. *)
Definition can_make_request (now : time) (rl : RateLimiter) : RateLimiter * bool :=
  let kept := filter (fun t => now - t <? window_us rl) (requests rl) in
  (Build (max_requests rl) (time_window rl) kept,
   Z.of_nat (length kept) <? max_requests rl).

(** [record_request] *)
Definition record_request (now : time) (rl : RateLimiter) : RateLimiter :=
  Build (max_requests rl) (time_window rl) (requests rl ++ [now]).

(** [get_wait_time], in microseconds. *)
Definition get_wait_time (now : time) (rl : RateLimiter) : Z :=
  match requests rl with
  | [] => 0
  | t :: ts =>
      let oldest_request := fold_left Z.min ts t in
      Z.max 0 (oldest_request + window_us rl - now)
  end.

(** The admission part of [_process_request], statement by statement.  Each
    limiter method holds the limiter's lock for its own duration only, so a
    worker can be preempted between any two of them. *)
Inductive pc :=
| AtCheck                 (* about to call [can_make_request] *)
| AtWait                  (* the check failed: about to call [get_wait_time] *)
| Sleeping (until : time) (* in [time.sleep(wait_time)] *)
| AtRecord                (* about to call [record_request] *)
| AtCallback.             (* recorded: about to run [request.callback] *)

Record system := System {
  clock : time;
  limiter : RateLimiter;
  workers : list pc
}.

Inductive event :=
| Tick (dt : Z)           (* time passes *)
| Run (w : nat).          (* worker [w] executes its next statement *)

Definition step_worker (now : time) (rl : RateLimiter) (p : pc) : RateLimiter * pc :=
  match p with
  | AtCheck =>
      let '(rl', ok) := can_make_request now rl in
      (rl', if ok then AtRecord else AtWait)
  | AtWait => (rl, Sleeping (now + get_wait_time now rl))
  | Sleeping until => (rl, if (until <=? now) then AtRecord else Sleeping until)
  | AtRecord => (record_request now rl, AtCallback)
  | AtCallback => (rl, AtCheck)   (* the call is made; the loop takes the next request *)
  end.

Definition step (s : system) (e : event) : system :=
  match e with
  | Tick dt => System (clock s + Z.max 0 dt) (limiter s) (workers s)
  | Run w =>
      match workers s !! w with
      | Some p =>
          let '(rl', p') := step_worker (clock s) (limiter s) p in
          System (clock s) rl' (<[w := p']> (workers s))
      | None => s
      end
  end.

Definition run (s : system) (es : list event) : system := foldl step s es.

(** Calls recorded (admitted) in the trailing window that ends at [now]. *)
Definition admitted_in_window (now : time) (rl : RateLimiter) : Z :=
  Z.of_nat (length (filter (fun t => (now - t <? window_us rl) && (t <=? now))
                           (requests rl))).

(** The stamps [can_make_request] would keep at [now]. *)
Definition live (now : time) (rl : RateLimiter) : list time :=
  filter (fun t => now - t <? window_us rl) (requests rl).

(** What a single worker maintains between its statements. *)
Definition lone_worker_inv (s : system) : Prop :=
  let rl := limiter s in
  match workers s with
  | [AtCheck] | [AtCallback] =>
      Z.of_nat (length (live (clock s) rl)) <= max_requests rl
  | [AtRecord] =>
      Z.of_nat (length (live (clock s) rl)) + 1 <= max_requests rl
  | [AtWait] =>
      requests rl <> [] /\ Z.of_nat (length (requests rl)) <= max_requests rl
  | [Sleeping until] =>
      Z.of_nat (length (requests rl)) <= max_requests rl
      /\ exists t, In t (requests rl) /\ t + window_us rl <= until
  | _ => False
  end.

End Limiter.

(* ===================================================================== *)
(** * Validator and cleaner ([src/core/crypto_data_validator.py])         *)
(* ===================================================================== *)

Module Validator.
Import Py.

(** ** Row selection and NaN-aware kernels *)

Definition col_take (idx : list nat) (c : column) : column :=
  match c with
  | FloatCol l => FloatCol (omap (fun i => l !! i) idx)
  | BoolCol l => BoolCol (omap (fun i => l !! i) idx)
  | StrCol l => StrCol (omap (fun i => l !! i) idx)
  | TimeCol l => TimeCol (omap (fun i => l !! i) idx)
  end.

(** [df.iloc[idx]] with a fresh index. *)
Definition select_rows (idx : list nat) (df : frame) : frame :=
  Frame (length idx) (col_take idx <$> columns df).

(** Positions at which a boolean mask holds. *)
Definition positions (mask : list bool) : list nat :=
  omap (fun p : nat * bool => if p.2 then Some p.1 else None)
       (zip (seq 0 (length mask)) mask).

(** Positions of the cells that no later cell repeats ([keep='last']). *)
Fixpoint keep_last {K} (eqb : K -> K -> bool) (i : nat) (l : list K) : list nat :=
  match l with
  | [] => []
  | k :: t =>
      if existsb (eqb k) t then keep_last eqb (S i) t
      else i :: keep_last eqb (S i) t
  end.

Fixpoint insert_sorted {K} (leb : K -> K -> bool) (x : K * nat) (l : list (K * nat))
  : list (K * nat) :=
  match l with
  | [] => [x]
  | y :: t => if leb x.1 y.1 then x :: y :: t else y :: insert_sorted leb x t
  end.

(** The permutation that sorts the keys in ascending order. *)
Definition argsort {K} (leb : K -> K -> bool) (l : list K) : list nat :=
  snd <$> foldr (insert_sorted leb) [] (zip l (seq 0 (length l))).

Definition float_eqb (a b : float) : bool := (a =? b)%float || (isnan a && isnan b).

(** [df.drop_duplicates(subset=[c], keep='last')]; [None] is the [KeyError]. *)
Definition drop_duplicates (c : string) (df : frame) : option frame :=
  col ← columns df !! c;
  Some (select_rows
          match col with
          | FloatCol l => keep_last float_eqb 0 l
          | BoolCol l => keep_last Bool.eqb 0 l
          | StrCol l => keep_last String.eqb 0 l
          | TimeCol l => keep_last Z.eqb 0 l
          end df).

(** [df.sort_values(c).reset_index(drop=True)] *)
Definition sort_values (c : string) (df : frame) : option frame :=
  col ← columns df !! c;
  Some (select_rows
          match col with
          | FloatCol l => argsort PrimFloat.leb l
          | BoolCol l => argsort implb l
          | StrCol l => argsort String.leb l
          | TimeCol l => argsort Z.leb l
          end df).

Definition valid (l : list float) : list float :=
  filter (fun x => isnan x = false) l.

(** [max] and [min] with [skipna=True]: NaN only when every cell is NaN. *)
Definition nanmax (l : list float) : float := window_max (valid l).
Definition nanmin (l : list float) : float := window_min (valid l).
Definition nanmean (l : list float) : float :=
  match valid l with [] => nan | v => window_mean v end.
Definition nanstd (l : list float) : float :=
  match valid l with [] => nan | v => window_std v end.

(** The first valid cell of [l] and the number of NaN cells before it. *)
Fixpoint next_valid (l : list float) : option (nat * float) :=
  match l with
  | [] => None
  | x :: t =>
      if isnan x then (fun p : nat * float => (S p.1, p.2)) <$> next_valid t
      else Some (0%nat, x)
  end.

(** [s.interpolate(method='linear')]: cells are equally spaced; a NaN between
    two valid cells lies on the line through them, NaN after the last valid
    cell repeats it, NaN before the first valid cell stays.  [prev] is the
    last valid cell and the number of NaN cells seen since. *)
Fixpoint interpolate_from (prev : option (float * nat)) (l : list float) : list float :=
  match l with
  | [] => []
  | x :: t =>
      if isnan x then
        match prev with
        | None => x :: interpolate_from None t
        | Some (p, j) =>
            let v :=
              match next_valid t with
              | Some (k, nxt) =>
                  ((nxt - p) / float_of_Z (Z.of_nat (j + k + 2))
                   * float_of_Z (Z.of_nat (j + 1)) + p)%float
              | None => p
              end in
            v :: interpolate_from (Some (p, S j)) t
        end
      else x :: interpolate_from (Some (x, 0%nat)) t
  end.

Definition interpolate (l : list float) : list float := interpolate_from None l.

(** [s.fillna(v)] *)
Definition fillna (v : float) (l : list float) : list float :=
  map (fun x => if isnan x then v else x) l.

(** A statement that keeps the rows on which [pred] holds in column [c]:
    [data = data[pred(data[c])]]. *)
Definition keep_rows (c : string) (pred : float -> bool) : prog :=
  fun df => match get df c with
            | Some l => (select_rows (positions (map pred l)) df, Completed)
            | None => (df, Raised)
            end.

(** ** The cleaner *)

(** [_fix_price_anomalies] *)
Definition _fix_price_anomalies (data : frame) : frame :=
  fst ((assign "High" (fun df =>
          h ← get df "High"; l ← get df "Low";
          Some (map2 (fun h l => nanmax [h; l]) h l)) >>
        assign "Low" (fun df =>
          h ← get df "High"; l ← get df "Low";
          Some (map2 (fun h l => nanmin [h; l]) h l)) >>
        assign "High" (fun df =>
          h ← get df "High"; o ← get df "Open"; c ← get df "Close";
          Some (FloatCol (zip_with (fun h oc => nanmax [h; oc.1; oc.2]) h (zip o c)))) >>
        assign "Low" (fun df =>
          l ← get df "Low"; o ← get df "Open"; c ← get df "Close";
          Some (FloatCol (zip_with (fun l oc => nanmin [l; oc.1; oc.2]) l (zip o c)))))
         data).

(** [_fix_volume_anomalies] *)
Definition _fix_volume_anomalies (data : frame) : frame :=
  fst ((assign "Volume" (fun df =>
          v ← get df "Volume";
          Some (FloatCol (map (fun x => if (x <? 0)%float then 0%float else x) v))) >>
        when (fun df => match get df "Volume" with
                        | Some v => existsb (fun x => (x =? 0)%float) v
                        | None => false
                        end)
          (assign "Volume" (fun df =>
             v ← get df "Volume";
             Some (FloatCol (map (fun x => if (x =? 0)%float then nan else x) v))) >>
           assign "Volume" (fun df =>
             v ← get df "Volume"; Some (FloatCol (interpolate v))) >>
           assign "Volume" (fun df =>
             v ← get df "Volume"; Some (FloatCol (fillna (nanmean v) v)))))
         data).

(** [data.isnull().sum().sum()] *)
Definition missing_count (df : frame) : nat :=
  map_fold (fun _ c n =>
              match c with
              | FloatCol l => (length (filter (fun x => isnan x = true) l) + n)%nat
              | _ => n
              end) 0%nat (columns df).

Definition numeric_columns : list string := ["Open"; "High"; "Low"; "Close"; "Volume"].

(** [_fill_missing_values] *)
Definition _fill_missing_values (data : frame) : frame :=
  fst (when (fun df => (0 <? missing_count df)%nat)
         (foldr (fun col rest =>
                   when (fun df => has_column df col)
                     (assign col (fun df =>
                        v ← get df col; Some (FloatCol (interpolate v))) >>
                      assign col (fun df =>
                        v ← get df col; Some (FloatCol (fillna (nanmean v) v)))) >>
                   rest)
                skip numeric_columns)
         data).

(** [_remove_invalid_records] *)
Definition _remove_invalid_records (data : frame) : frame :=
  fst ((keep_rows "Open" (fun x => (x >? 0)%float) >>
        keep_rows "High" (fun x => (x >? 0)%float) >>
        keep_rows "Low" (fun x => (x >? 0)%float) >>
        keep_rows "Close" (fun x => (x >? 0)%float) >>
        keep_rows "Volume" (fun x => (x >=? 0)%float) >>
        keep_rows "Close" (fun x => (x >=? 0.000001)%float))
         data).

(** [clean_ohlcv_data].  The helpers work on [cleaned_data], a copy; the
    [except] clause returns [data], the argument. *)
Definition clean_ohlcv_data (data : frame) : frame :=
  if empty data then data
  else
    default data (
      cleaned_data ← drop_duplicates "Date" data;
      cleaned_data ← sort_values "Date" cleaned_data;
      let cleaned_data := _fix_price_anomalies cleaned_data in
      let cleaned_data := _fix_volume_anomalies cleaned_data in
      let cleaned_data := _fill_missing_values cleaned_data in
      let cleaned_data := _remove_invalid_records cleaned_data in
      Some cleaned_data).

(** The cleaner invariant on row [i] of a frame. *)
Definition row_ok (df : frame) (i : nat) : bool :=
  match get df "Open", get df "High", get df "Low", get df "Close", get df "Volume" with
  | Some o, Some h, Some l, Some c, Some v =>
      match o !! i, h !! i, l !! i, c !! i, v !! i with
      | Some o, Some h, Some l, Some c, Some v =>
          (h >=? o)%float && (h >=? c)%float && (l <=? o)%float && (l <=? c)%float
          && (v >=? 0)%float
      | _, _, _, _, _ => false
      end
  | _, _, _, _, _ => false
  end.

(** ** The validator *)

Inductive issue :=
| EmptyData
| MissingColumns (cols : list string)
| ConversionFailed
| NonPositive (col : string)
| NegativeVolume
| HighBelowLow
| HighBelow (col : string)
| LowAbove (col : string)
| LargePriceMoves (count : nat) (max_change : float)
| VeryLowPrice (min_price : float)
| ZeroVolume (count : nat)
| ExtremeVolume (count : nat)
| DatesNotSorted
| DateGaps (count : nat)
| DuplicateDates (count : nat).

(** [validation_result] (the [stats] entry, a rendering of the series for the
    log, is left out). *)
Record report := Report {
  is_valid : bool;
  errors : list issue;
  warnings : list issue
}.

Definition add_error (e : issue) (r : report) : report :=
  Report false (errors r ++ [e]) (warnings r).
Definition add_warning (w : issue) (r : report) : report :=
  Report (is_valid r) (errors r) (warnings r ++ [w]).

Definition required_columns : list string :=
  ["Date"; "Open"; "High"; "Low"; "Close"; "Volume"].

Definition count (mask : list bool) : nat := length (filter (fun b => b = true) mask).

(** The typed series after step 3 ([pd.to_datetime], [astype(float)]). *)
Record ohlcv := OHLCV {
  Date_ : list Z;
  Open : list float;
  High : list float;
  Low : list float;
  Close : list float;
  Volume : list float
}.

(** A decimal digit, and a run of digits read as a number. *)
Definition digit (a : Ascii.ascii) : option Z :=
  let n := Z.of_nat (Ascii.nat_of_ascii a) - 48 in
  if (0 <=? n) && (n <=? 9) then Some n else None.

Definition digits (l : list Ascii.ascii) : option Z :=
  foldl (fun acc a => n ← acc; d ← digit a; Some (10 * n + d)) (Some 0) l.

(** [pd.to_datetime] on one text cell in the form the pipeline writes,
    ['%Y-%m-%d']: the day it spells, or [None] (a [ValueError]) when the text
    is not of that form, spells no calendar day or lies outside the range of
    [pd.Timestamp] (1677-09-22 to 2262-04-11). *)
Definition parse_date (s : string) : option Z :=
  match String.list_ascii_of_string s with
  | [y1; y2; y3; y4; sep1; m1; m2; sep2; d1; d2] =>
      if String.eqb (String sep1 (String sep2 EmptyString)) "--" then
        y ← digits [y1; y2; y3; y4];
        m ← digits [m1; m2];
        d ← digits [d1; d2];
        let t := Date.YMD y m d in
        let n := Date.strptime t in
        if Date.eqb (Date.strftime n) t
           && (Date.strptime (Date.YMD 1677 9 22) <=? n)
           && (n <=? Date.strptime (Date.YMD 2262 4 11))
        then Some n else None
      else None
  | _ => None
  end.

(** [pd.to_datetime(data['Date'])]: timestamps stay, text cells are parsed,
    booleans raise [TypeError]. *)
Definition to_datetime (c : column) : option (list Z) :=
  match c with
  | TimeCol l => Some l
  | StrCol l => mapM parse_date l
  | FloatCol _ => None
  | BoolCol _ => None
  end.

(** Step 3. *)
Definition convert (data : frame) : option ohlcv :=
  d ← columns data !! "Date";
  dates ← to_datetime d;
  o ← get data "Open";
  h ← get data "High";
  l ← get data "Low";
  c ← get data "Close";
  v ← get data "Volume";
  Some (OHLCV dates o h l c v).

Definition any2 (f : float -> float -> bool) (a b : list float) : bool :=
  existsb id (zip_with f a b).

(** [_check_price_anomalies]; [s.pct_change()] is [s / s.shift(1) - 1]. *)
Definition _check_price_anomalies (max_price_deviation : float) (d : ohlcv)
    (r : report) : report :=
  let price_change :=
    zip_with (fun c p => fabs (c / p - 1)%float) (Close d) (shift 1 (Close d)) in
  let large_changes := map (fun x => (x >? max_price_deviation)%float) price_change in
  let r := if existsb id large_changes
           then add_warning (LargePriceMoves (count large_changes) (nanmax price_change)) r
           else r in
  let min_price := nanmin (Close d) in
  if (min_price <? 0.000001)%float then add_warning (VeryLowPrice min_price) r else r.

(** [_check_volume_anomalies] *)
Definition _check_volume_anomalies (d : ohlcv) (r : report) : report :=
  let zero_volume := count (map (fun v => (v =? 0)%float) (Volume d)) in
  let r := if (0 <? zero_volume)%nat then add_warning (ZeroVolume zero_volume) r else r in
  let volume_mean := nanmean (Volume d) in
  let volume_std := nanstd (Volume d) in
  if (volume_std >? 0)%float then
    let extreme_volume :=
      count (map (fun v => ((v - volume_mean) / volume_std >? 5)%float) (Volume d)) in
    if (0 <? extreme_volume)%nat then add_warning (ExtremeVolume extreme_volume) r else r
  else r.

Fixpoint is_monotonic_increasing (l : list Z) : bool :=
  match l with
  | a :: (b :: _) as t => (a <=? b) && is_monotonic_increasing t
  | _ => true
  end.

(** [s.duplicated().sum()]: cells equal to an earlier one. *)
Fixpoint duplicated (seen l : list Z) : nat :=
  match l with
  | [] => 0
  | x :: t =>
      ((if existsb (Z.eqb x) seen then 1 else 0) + duplicated (x :: seen) t)%nat
  end.

(** [_check_time_series] *)
Definition _check_time_series (d : ohlcv) (r : report) : report :=
  let r := if negb (is_monotonic_increasing (Date_ d))
           then add_warning DatesNotSorted r else r in
  let date_diff := zip_with (fun a b => b - a) (Date_ d) (drop 1 (Date_ d)) in
  let unusual_gaps := count (map (fun g => 3 <? g) date_diff) in
  let r := if (0 <? unusual_gaps)%nat then add_warning (DateGaps unusual_gaps) r else r in
  let duplicate_dates := duplicated [] (Date_ d) in
  if (0 <? duplicate_dates)%nat then add_error (DuplicateDates duplicate_dates) r else r.

(** [validate_ohlcv_data] *)
Definition validate_ohlcv_data (max_price_deviation : float) (data : frame) : report :=
  let validation_result := Report true [] [] in
  (* 1 *)
  if empty data then add_error EmptyData validation_result
  else
    (* 2 *)
    let missing_columns := filter (fun c => has_column data c = false) required_columns in
    match missing_columns with
    | _ :: _ => add_error (MissingColumns missing_columns) validation_result
    | [] =>
        (* 3 *)
        match convert data with
        | None => add_error ConversionFailed validation_result
        | Some d =>
            (* 4 *)
            let r :=
              foldl (fun r (p : string * list float) =>
                       if existsb (fun x => (x <=? 0)%float) p.2
                       then add_error (NonPositive p.1) r else r)
                    validation_result
                    [("Open", Open d); ("High", High d); ("Low", Low d); ("Close", Close d)] in
            let r := if existsb (fun x => (x <? 0)%float) (Volume d)
                     then add_error NegativeVolume r else r in
            (* 5 *)
            let r := if any2 PrimFloat.ltb (High d) (Low d)
                     then add_error HighBelowLow r else r in
            let r :=
              foldl (fun r (p : string * list float) =>
                       if any2 PrimFloat.ltb (High d) p.2
                       then add_warning (HighBelow p.1) r else r)
                    r [("Open", Open d); ("Close", Close d)] in
            let r :=
              foldl (fun r (p : string * list float) =>
                       if any2 (fun l x => (l >? x)%float) (Low d) p.2
                       then add_warning (LowAbove p.1) r else r)
                    r [("Open", Open d); ("Close", Close d)] in
            (* 6, 7, 8 *)
            let r := _check_price_anomalies max_price_deviation d r in
            let r := _check_volume_anomalies d r in
            _check_time_series d r
        end
    end.

(** [validate_price_data] ([src/utils/validators.py]) *)
Definition validate_price_data (data : frame) : bool :=
  if empty data then false
  else if negb (forallb (has_column data) ["Open"; "High"; "Low"; "Close"; "Volume"])
  then false
  else
    match get data "Open", get data "High", get data "Low", get data "Close",
          get data "Volume" with
    | Some o, Some h, Some l, Some c, Some v =>
        if existsb (fun x => (x <=? 0)%float) (o ++ h ++ l ++ c) then false
        else if any2 PrimFloat.ltb h l then false
        else if existsb (fun x => (x <? 0)%float) v then false
        else true
    | _, _, _, _, _ => false
    end.

End Validator.

(* ===================================================================== *)
(** * Scenario data                                                       *)
(* ===================================================================== *)

Module Scenario.
Import Py.

Definition fz (n : Z) : float := float_of_Z n.

Definition bars (dates : list Z) (o h l c v : list float) : frame :=
  Frame (length dates)
        (list_to_map [("Date", TimeCol dates); ("Open", FloatCol o);
                      ("High", FloatCol h); ("Low", FloatCol l);
                      ("Close", FloatCol c); ("Volume", FloatCol v)]).

(** 130 daily bars ending on 2024-06-01: a steady climb from 100 by 3 a day
    for 120 days, then ten quiet days between 460.01 and 460.10. *)
Definition coiled_dates : list Z := map (fun i : nat => 738909 + Z.of_nat i) (seq 0 130).
Definition coiled_closes : list float :=
  map (fun i : nat => fz (100 + 3 * Z.of_nat i)) (seq 0 120)
  ++ map (fun i : nat => (fz (46000 + Z.of_nat i) / 100)%float) (seq 1 10).

(** Volume dries up on the last ten days: all five conditions hold. *)
Definition coiled_frame : frame :=
  bars coiled_dates coiled_closes
       (map (fun c => (c + 1)%float) coiled_closes)
       (map (fun c => (c - 1)%float) coiled_closes)
       coiled_closes
       (replicate 120 (fz 1000000) ++ replicate 10 (fz 500000)).

(** The same prices on unchanged volume: every condition but the volume
    contraction holds. *)
Definition busy_frame : frame :=
  bars coiled_dates coiled_closes
       (map (fun c => (c + 1)%float) coiled_closes)
       (map (fun c => (c - 1)%float) coiled_closes)
       coiled_closes
       (replicate 130 (fz 1000000)).

(** One enriched bar, as loaded from the store, flagged as a breakout of both
    Turtle systems. *)
Definition turtle_config : Turtle.config :=
  Turtle.Config 20 "sma" 20 55 10 20 2.0%float 10%float 500000%float 1 (Some 1%nat).

Definition turtle_frame : frame :=
  Frame 1 (list_to_map
    [("Date", TimeCol [739038]); ("Open", FloatCol [100%float]);
     ("High", FloatCol [103%float]); ("Low", FloatCol [99%float]);
     ("Close", FloatCol [102%float]); ("Volume", FloatCol [fz 900000]);
     ("atr", FloatCol [4%float]); ("high_20", FloatCol [100%float]);
     ("high_55", FloatCol [96%float]); ("volume_ratio", FloatCol [1.5%float]);
     ("price_change_5d", FloatCol [0.05%float]);
     ("price_change_20d", FloatCol [0.125%float]);
     ("system1_breakout", BoolCol [true]); ("system2_breakout", BoolCol [true])]).

(** One enriched bar 21% under its 25-day average. *)
Definition bnf_config : BNF.config :=
  BNF.Config 1 (-0.20)%float 10%float 500000%float 1 (Some 1%nat).

Definition bnf_frame : frame :=
  Frame 1 (list_to_map
    [("Date", TimeCol [739038]); ("Open", FloatCol [80%float]);
     ("High", FloatCol [81%float]); ("Low", FloatCol [78%float]);
     ("Close", FloatCol [79%float]); ("Volume", FloatCol [fz 900000]);
     ("ma25", FloatCol [100%float]); ("deviation_rate", FloatCol [(-0.21)%float]);
     ("volume_ratio", FloatCol [1.0%float])]).



(** Three consecutive bars; the middle one has no opening price and trades
    well under its neighbours. *)
Definition open_gap_frame : frame :=
  bars [739036; 739037; 739038]
       [10; nan; 10]%float
       [11; 5; 11]%float
       [9; 4; 9]%float
       [10; 4.5; 10]%float
       [100; 100; 100]%float.

(** A frame with no column and no row. *)
Definition blank_frame : frame := Frame 0 ∅.

(** Daily rows for [symbol], one per day from [first] to [last] (ordinals). *)
Definition fetched (symbol : string) (first last : Z)
    (payload : Z -> gmap string value) : list Database.row :=
  map (fun i : nat =>
         Database.Row (Some (Date.strftime (first + Z.of_nat i))) (Some symbol)
                      (payload (first + Z.of_nat i)))
      (seq 0 (Z.to_nat (last - first + 1))).

Definition close_only (c : float) : gmap string value := {[ "close" := Num c ]}.

(** A stored row for X, and a row whose [symbol] is missing. *)
Definition x_row (d : Date.ymd) (c : float) : Database.row :=
  Database.Row (Some d) (Some "X") (close_only c).
Definition anonymous_row : Database.row :=
  Database.Row (Some (Date.YMD 2024 6 1)) None (close_only 100).


(** A limiter admitting one call per minute, and two queue workers about to
    process a request each. *)
Definition one_per_minute : Limiter.RateLimiter := Limiter.Build 1 60 [].
Definition two_workers : Limiter.system :=
  Limiter.System 0 one_per_minute [Limiter.AtCheck; Limiter.AtCheck].




(** [p] only assigns columns named in [names] and keeps the row count. *)
Definition writes_only (names : list string) (p : prog) : Prop :=
  forall df : frame,
    nrows (p df).1 = nrows df
    /\ forall c : string, ~ In c names -> columns (p df).1 !! c = columns df !! c.

(** [p] removes no column. *)
Definition keeps_columns (p : prog) : Prop :=
  forall (df : frame) (c : string),
    has_column df c = true -> has_column (p df).1 c = true.

(** When [p] completes, the columns named in [names] are present. *)
Definition completes_with (names : list string) (p : prog) : Prop :=
  forall df : frame,
    (p df).2 = Completed ->
    forall c : string, In c names -> has_column (p df).1 c = true.


End Scenario.

(* ===================================================================== *)
(** * Ordered floats                                                      *)
(* ===================================================================== *)

Module FloatOrder.
Import Py.

(** A series without NaN. *)
Definition ordered (l : list float) : Prop := Forall (fun x => isnan x = false) l.

End FloatOrder.

(* ===================================================================== *)
(** * The screening loop ([src/screener.py])                              *)
(* ===================================================================== *)

Module Screener.
Import Py.

(** The body of the loop over symbols in [run_screening]:
    [stock_data = strategy.calculate_indicators(stock_data)] followed by
    [strategy.detect_signals(symbol, stock_data, ...)]. *)
Definition turtle_signals (cfg : Turtle.config) (symbol : string)
    (stock_data : frame) (account_value : float) : list Turtle.TurtleSignal :=
  let stock_data := Turtle.calculate_indicators cfg stock_data in
  Turtle.detect_signals cfg symbol stock_data account_value.

Definition bnf_signals (cfg : BNF.config) (symbol : string) (stock_data : frame)
  : list BNF.BNFSignal :=
  let stock_data := BNF.calculate_indicators cfg stock_data in
  BNF.detect_signals cfg symbol stock_data.

Definition coiled_spring_signals (cfg : CoiledSpring.config) (symbol : string)
    (stock_data : frame) : list CoiledSpring.CoiledSpringSignal :=
  let stock_data := CoiledSpring.calculate_indicators cfg stock_data in
  CoiledSpring.detect_signals cfg symbol stock_data.

End Screener.

(* ===================================================================== *)
(** * Reading a validation report                                         *)
(* ===================================================================== *)

Module Report.
Import Validator.

(** The verdict agrees with the error list. *)
Definition coherent (r : report) : Prop := is_valid r = true <-> errors r = [].

End Report.

(* ===================================================================== *)
(** * Properties of the strategy evaluators                               *)
(* ===================================================================== *)

(** [peel_binds E H]: [E : (x ← m; ...) = Some l] is the body of a [try]
    block that returned [l], and [H : In s l].  Walks down the binds and the
    guards, closing the branches that returned no signal. *)
Ltac peel_binds E H :=
  repeat first
    [ match type of E with
      | Some _ = Some _ => injection E as <-
      | None = Some _ => discriminate E
      | (if ?b then _ else _) = Some _ => destruct b eqn:?
      | mbind _ ?m = Some _ =>
          let x := fresh "x" in
          let Ex := fresh "Ex" in
          destruct m as [x|] eqn:Ex; [cbn [mbind option_bind] in E | discriminate E]
      end
    | match type of H with In _ [] => destruct H end ].

(** [peel_guards H]: [H : In s (detect_signals ...)], unfolded. *)
Ltac peel_guards H :=
  repeat (match type of H with
          | In _ (if ?b then _ else _) => destruct b
          end; try (by destruct H));
  match type of H with
  | In _ (default [] ?o) =>
      let l := fresh "l" in
      let E := fresh "E" in
      destruct o as [l|] eqn:E; [cbn [default from_option id] in H | by destruct H];
      peel_binds E H
  end.

Section StrategyScores.
Import Py.

Lemma breakout_band_range p : 5 <= Turtle.breakout_band p <= 40.
Proof. unfold Turtle.breakout_band. repeat case_match; lia. Qed.

Lemma volume_band_range v : 12 <= Turtle.volume_band v <= 35.
Proof. unfold Turtle.volume_band. repeat case_match; lia. Qed.

Lemma momentum_band_range m : 0 <= Turtle.momentum_band m <= 25.
Proof. unfold Turtle.momentum_band. repeat case_match; lia. Qed.

Lemma turtle_scores_compose (d : Turtle.signal_data) :
  let s := Turtle._calculate_signal_score d in
  Turtle.breakout_score s + Turtle.volume_score s + Turtle.momentum_score s
    = Turtle.total_score s
  /\ 17 <= Turtle.total_score s <= 100.
Proof.
  destruct d as [p v m]; cbn.
  pose proof (breakout_band_range p). pose proof (volume_band_range v).
  pose proof (momentum_band_range m). lia.
Qed.

Lemma turtle_created_signal_scores cfg symbol row kind days account s :
  Turtle._create_turtle_signal cfg symbol row kind days account = Some s ->
  Turtle.sig_breakout_score s + Turtle.sig_volume_score s + Turtle.sig_momentum_score s
    = Turtle.sig_total_score s
  /\ 0 <= Turtle.sig_total_score s <= 100.
Proof.
  unfold Turtle._create_turtle_signal. intros H.
  simplify_option_eq.
  split; [reflexivity|].
  match goal with
  | |- _ <= Turtle.breakout_band ?p + Turtle.volume_band ?v + Turtle.momentum_band ?m <= _ =>
      pose proof (breakout_band_range p); pose proof (volume_band_range v);
      pose proof (momentum_band_range m)
  end.
  lia.
Qed.

Lemma turtle_detected_signal_scores cfg symbol df account s :
  In s (Turtle.detect_signals cfg symbol df account) ->
  Turtle.sig_breakout_score s + Turtle.sig_volume_score s + Turtle.sig_momentum_score s
    = Turtle.sig_total_score s
  /\ 0 <= Turtle.sig_total_score s <= 100.
Proof.
  unfold Turtle.detect_signals. intros H.
  peel_guards H.
  apply in_app_or in H as [H|H].
  all: match type of H with
       | In _ (if ?b then _ else _) => destruct b; [|by destruct H]
       end.
  all: match type of H with
       | In _ (option_list ?o) => destruct o eqn:Ec; [|by destruct H]
       end.
  all: destruct H as [<-|[]]; eauto using turtle_created_signal_scores.
Qed.

Lemma bnf_scores_compose dev vr :
  let s := BNF._calculate_signal_score dev vr in
  BNF.deviation_score s + BNF.volume_score s = BNF.total_score s
  /\ 5 <= BNF.total_score s <= 100.
Proof.
  cbn. repeat case_match; lia.
Qed.

Lemma bnf_detected_signal_scores cfg symbol df s :
  In s (BNF.detect_signals cfg symbol df) ->
  BNF.sig_deviation_score s + BNF.sig_volume_score s = BNF.sig_total_score s
  /\ 0 <= BNF.sig_total_score s <= 100.
Proof.
  unfold BNF.detect_signals. intros H.
  peel_guards H.
  destruct H as [<-|[]]; cbn.
  repeat case_match; lia.
Qed.

Lemma coiled_scores_compose v10 v60 ma up vr :
  let s := CoiledSpring._calculate_signal_score v10 v60 ma up vr in
  CoiledSpring.volatility_score s + CoiledSpring.trend_score s
    + CoiledSpring.volume_score s + CoiledSpring.history_points v60
    = CoiledSpring.total_score s
  /\ 0 <= CoiledSpring.total_score s <= 100.
Proof.
  cbn. unfold CoiledSpring.history_points. repeat case_match; lia.
Qed.

Lemma coiled_checked_row_scores cfg symbol row l s :
  CoiledSpring.check_row cfg symbol row = Some l -> In s l ->
  CoiledSpring.sig_volatility_score s + CoiledSpring.sig_trend_score s
    + CoiledSpring.sig_volume_score s
    + CoiledSpring.history_points (CoiledSpring.volatility_60d s)
    = CoiledSpring.sig_total_score s
  /\ 0 <= CoiledSpring.sig_total_score s <= 100.
Proof.
  unfold CoiledSpring.check_row. intros E H.
  peel_binds E H.
  destruct H as [<-|[]]; cbn.
  unfold CoiledSpring.history_points.
  repeat case_match; lia.
Qed.

Lemma coiled_detected_signal_scores cfg symbol df s :
  In s (CoiledSpring.detect_signals cfg symbol df) ->
  CoiledSpring.sig_volatility_score s + CoiledSpring.sig_trend_score s
    + CoiledSpring.sig_volume_score s
    + CoiledSpring.history_points (CoiledSpring.volatility_60d s)
    = CoiledSpring.sig_total_score s
  /\ 0 <= CoiledSpring.sig_total_score s <= 100.
Proof.
  unfold CoiledSpring.detect_signals. intros H.
  repeat (match type of H with
          | In _ (if ?b then _ else _) => destruct b
          end; try (by destruct H)).
  match type of H with
  | In _ (default [] ?o) => destruct o as [l|] eqn:E; [|by destruct H]
  end.
  eapply coiled_checked_row_scores; eauto.
Qed.

End StrategyScores.

(** C1, as the code has it.  Every signal the Turtle and BNF evaluators emit
    has a total equal to the sum of its named sub-scores.  A Coiled-Spring
    signal's total is the sum of its three named sub-scores plus the
    historical-volatility points (0, 5 or 10, decided by the 60-day standard
    deviation), which no field of the signal records.  Every total lies
    between 0 and 100. *)
Theorem signal_score_composition :
  (forall cfg symbol df account s,
      In s (Turtle.detect_signals cfg symbol df account) ->
      Turtle.sig_breakout_score s + Turtle.sig_volume_score s
        + Turtle.sig_momentum_score s = Turtle.sig_total_score s
      /\ 0 <= Turtle.sig_total_score s <= 100)
  /\ (forall cfg symbol df s,
        In s (BNF.detect_signals cfg symbol df) ->
        BNF.sig_deviation_score s + BNF.sig_volume_score s = BNF.sig_total_score s
        /\ 0 <= BNF.sig_total_score s <= 100)
  /\ (forall cfg symbol df s,
        In s (CoiledSpring.detect_signals cfg symbol df) ->
        CoiledSpring.sig_volatility_score s + CoiledSpring.sig_trend_score s
          + CoiledSpring.sig_volume_score s
          + CoiledSpring.history_points (CoiledSpring.volatility_60d s)
          = CoiledSpring.sig_total_score s
        /\ 0 <= CoiledSpring.sig_total_score s <= 100).
Proof.
  split; [|split]; intros.
  - eapply turtle_detected_signal_scores; eauto.
  - eapply bnf_detected_signal_scores; eauto.
  - eapply coiled_detected_signal_scores; eauto.
Qed.

(** The three evaluators each emit a signal on the scenario frames, and the
    composition law holds of it. *)
Lemma signal_score_composition_witness :
  (exists s,
      In s (Turtle.detect_signals Scenario.turtle_config "X" Scenario.turtle_frame 100000)
      /\ Turtle.sig_breakout_score s + Turtle.sig_volume_score s
           + Turtle.sig_momentum_score s = Turtle.sig_total_score s)
  /\ (exists s,
        In s (BNF.detect_signals Scenario.bnf_config "X" Scenario.bnf_frame)
        /\ BNF.sig_deviation_score s + BNF.sig_volume_score s = BNF.sig_total_score s)
  /\ (exists s,
        In s (CoiledSpring.detect_signals CoiledSpring.default_config "X"
                                          Scenario.coiled_frame)
        /\ CoiledSpring.sig_volatility_score s + CoiledSpring.sig_trend_score s
             + CoiledSpring.sig_volume_score s
             + CoiledSpring.history_points (CoiledSpring.volatility_60d s)
             = CoiledSpring.sig_total_score s).
Proof.
  destruct signal_score_composition as (HT & HB & HC).
  split; [|split].
  - eexists. split; [vm_compute; left; reflexivity|].
    apply (HT Scenario.turtle_config "X" Scenario.turtle_frame 100000%float).
    vm_compute; left; reflexivity.
  - eexists. split; [vm_compute; left; reflexivity|].
    apply (HB Scenario.bnf_config "X" Scenario.bnf_frame).
    vm_compute; left; reflexivity.
  - eexists. split; [vm_compute; left; reflexivity|].
    apply (HC CoiledSpring.default_config "X" Scenario.coiled_frame).
    vm_compute; left; reflexivity.
Defined.

(** C1 as stated fails for Coiled-Spring: on the scenario frame the one
    emitted signal has sub-scores 10 + 30 + 10 = 50 and a total of 60. *)
Lemma coiled_spring_total_exceeds_subscores :
  map (fun s => (CoiledSpring.sig_volatility_score s + CoiledSpring.sig_trend_score s
                   + CoiledSpring.sig_volume_score s,
                 CoiledSpring.sig_total_score s))
      (CoiledSpring.detect_signals CoiledSpring.default_config "X" Scenario.coiled_frame)
  = [(50, 60)].
Proof. vm_compute. reflexivity. Qed.

Section CoiledSpringConditions.
Import Py.

Lemma four_flags_not_all (row : row) :
  length (filter (fun c => CoiledSpring.flag row c = true) CoiledSpring.conditions) = 4%nat ->
  CoiledSpring.flag row "volatility_check" && CoiledSpring.flag row "price_contract"
  && CoiledSpring.flag row "ma_alignment" && CoiledSpring.flag row "up_trend_6mo"
  && CoiledSpring.flag row "vol_contract" = false.
Proof.
  unfold CoiledSpring.conditions. rewrite !filter_cons, filter_nil.
  destruct (CoiledSpring.flag row "volatility_check"),
    (CoiledSpring.flag row "price_contract"),
    (CoiledSpring.flag row "ma_alignment"),
    (CoiledSpring.flag row "up_trend_6mo"),
    (CoiledSpring.flag row "vol_contract");
    vm_compute; intros; try reflexivity; discriminate.
Qed.

Lemma check_row_needs_all_five cfg symbol row l :
  CoiledSpring.check_row cfg symbol row = Some l ->
  CoiledSpring.flag row "volatility_check" && CoiledSpring.flag row "price_contract"
  && CoiledSpring.flag row "ma_alignment" && CoiledSpring.flag row "up_trend_6mo"
  && CoiledSpring.flag row "vol_contract" = false ->
  l = [].
Proof.
  unfold CoiledSpring.check_row. intros E Hf. rewrite Hf in E.
  repeat match type of E with
         | Some _ = Some _ => injection E as <-
         | (if ?b then _ else _) = Some _ => destruct b eqn:?
         | mbind _ ?m = Some _ =>
             let x := fresh "x" in
             destruct m as [x|]; [cbn [mbind option_bind] in E | discriminate E]
         end; reflexivity.
Qed.

Lemma false_flag_not_all (row : row) (c : string) :
  c ∈ CoiledSpring.conditions -> CoiledSpring.flag row c = false ->
  CoiledSpring.flag row "volatility_check" && CoiledSpring.flag row "price_contract"
  && CoiledSpring.flag row "ma_alignment" && CoiledSpring.flag row "up_trend_6mo"
  && CoiledSpring.flag row "vol_contract" = false.
Proof.
  unfold CoiledSpring.conditions. intros Hin Hc.
  repeat (apply elem_of_cons in Hin as [->|Hin];
          [rewrite Hc, ?andb_false_r; reflexivity|]).
  inversion Hin.
Qed.

(** [detect_signals] is empty unless the five flags of the latest enriched
    row are all true. *)
Lemma detect_needs_all_five cfg symbol df :
  (let row := last_row (CoiledSpring.calculate_indicators cfg df) in
   CoiledSpring.flag row "volatility_check" && CoiledSpring.flag row "price_contract"
   && CoiledSpring.flag row "ma_alignment" && CoiledSpring.flag row "up_trend_6mo"
   && CoiledSpring.flag row "vol_contract") = false ->
  CoiledSpring.detect_signals cfg symbol df = [].
Proof.
  cbv zeta. intros H.
  unfold CoiledSpring.detect_signals.
  repeat (case_match; try reflexivity).
  destruct (CoiledSpring.check_row _ _ _) as [l|] eqn:E; [|reflexivity].
  cbn. eapply check_row_needs_all_five; eauto.
Qed.

End CoiledSpringConditions.

(** C6.  [detect_signals] of the Coiled-Spring strategy emits a signal only
    when all five conditions hold on the latest row of the enriched series:
    when exactly four of the five hold it returns no signal; more generally
    it returns no signal as soon as one condition fails; and every emitted
    signal comes from a row on which the five conditions hold. *)
Theorem coiled_spring_four_of_five_no_signal
    (cfg : CoiledSpring.config) (symbol : string) (df : Py.frame) :
  let row := Py.last_row (CoiledSpring.calculate_indicators cfg df) in
  (length (filter (fun c => CoiledSpring.flag row c = true) CoiledSpring.conditions)
   = 4%nat ->
   CoiledSpring.detect_signals cfg symbol df = [])
  /\ (forall c, c ∈ CoiledSpring.conditions -> CoiledSpring.flag row c = false ->
      CoiledSpring.detect_signals cfg symbol df = [])
  /\ (forall s, s ∈ CoiledSpring.detect_signals cfg symbol df ->
      forall c, c ∈ CoiledSpring.conditions -> CoiledSpring.flag row c = true).
Proof.
  cbv zeta. split; [|split].
  - intros H. apply detect_needs_all_five. now apply four_flags_not_all.
  - intros c Hin Hc. apply detect_needs_all_five. now apply (false_flag_not_all _ c).
  - intros s Hs c Hin.
    destruct (CoiledSpring.flag _ c) eqn:Hc; [reflexivity|].
    rewrite (detect_needs_all_five cfg symbol df) in Hs.
    + inversion Hs.
    + now apply (false_flag_not_all _ c).
Qed.

(** On the scenario frame with unchanged volume, four conditions hold, the
    volume contraction fails, and nothing is emitted; on the scenario frame
    with contracting volume a signal is emitted and the five conditions
    hold. *)
Lemma coiled_spring_four_of_five_no_signal_witness :
  map (CoiledSpring.flag
         (Py.last_row (CoiledSpring.calculate_indicators CoiledSpring.default_config
                                                         Scenario.busy_frame)))
      CoiledSpring.conditions = [true; true; true; true; false]
  /\ CoiledSpring.detect_signals CoiledSpring.default_config "X" Scenario.busy_frame = []
  /\ length (CoiledSpring.detect_signals CoiledSpring.default_config "X"
                                         Scenario.coiled_frame) = 1%nat
  /\ CoiledSpring.flag
       (Py.last_row (CoiledSpring.calculate_indicators CoiledSpring.default_config
                                                       Scenario.coiled_frame))
       "vol_contract" = true.
Proof.
  split; [vm_compute; reflexivity|].
  split.
  - apply (coiled_spring_four_of_five_no_signal CoiledSpring.default_config "X"
                                                Scenario.busy_frame).
    vm_compute. reflexivity.
  - split; [vm_compute; reflexivity|].
    let l := eval vm_compute in
               (CoiledSpring.detect_signals CoiledSpring.default_config "X"
                                            Scenario.coiled_frame) in
    match l with
    | ?s :: _ =>
        apply (proj2 (proj2 (coiled_spring_four_of_five_no_signal
                               CoiledSpring.default_config "X" Scenario.coiled_frame)) s)
    end.
    + vm_compute. constructor.
    + vm_compute. repeat constructor.
Defined.



Section FramePrograms.
Import Py.

Lemma writes_only_skip names : Scenario.writes_only names skip.
Proof. intros df. cbn. auto. Qed.

Lemma writes_only_assign names c rhs :
  In c names -> Scenario.writes_only names (assign c rhs).
Proof.
  intros Hc df. unfold assign. destruct (rhs df); cbn; [|auto].
  split; [reflexivity|]. intros c' Hc'.
  apply lookup_insert_ne. intros ->. contradiction.
Qed.

Lemma writes_only_seq names p q :
  Scenario.writes_only names p -> Scenario.writes_only names q ->
  Scenario.writes_only names (p >> q).
Proof.
  intros Hp Hq df. unfold seq_.
  destruct (Hp df) as [Hn Hc]. destruct (p df) as [df' []]; cbn in *; [|auto].
  destruct (Hq df') as [Hn' Hc']. split; [congruence|].
  intros c H. rewrite Hc', Hc; auto.
Qed.

Lemma writes_only_when names cond p :
  Scenario.writes_only names p -> Scenario.writes_only names (when cond p).
Proof.
  intros Hp df. unfold when. destruct (cond df); [apply Hp|cbn; auto].
Qed.


Lemma get_set (df : frame) (c c' : string) (col : column) :
  get (set df c col) c' = if String.eqb c c' then col_floats col else get df c'.
Proof.
  unfold get, set. cbn. destruct (String.eqb_spec c c') as [->|N].
  - now rewrite lookup_insert_eq.
  - now rewrite lookup_insert_ne.
Qed.

Lemma has_column_set (df : frame) (c c' : string) (col : column) :
  has_column (set df c col) c' = String.eqb c c' || has_column df c'.
Proof.
  unfold has_column, set. cbn. destruct (String.eqb_spec c c') as [->|N].
  - rewrite lookup_insert_eq. reflexivity.
  - rewrite lookup_insert_ne by exact N. reflexivity.
Qed.

Lemma keeps_columns_skip : Scenario.keeps_columns skip.
Proof. intros df c H. exact H. Qed.

Lemma keeps_columns_assign c rhs : Scenario.keeps_columns (assign c rhs).
Proof.
  intros df c' H. unfold assign. destruct (rhs df); cbn; [|exact H].
  rewrite has_column_set, H. apply orb_true_r.
Qed.

Lemma keeps_columns_seq p q :
  Scenario.keeps_columns p -> Scenario.keeps_columns q -> Scenario.keeps_columns (p >> q).
Proof.
  intros Hp Hq df c H. unfold seq_.
  specialize (Hp df c H). destruct (p df) as [df' []]; cbn in *; auto.
Qed.

Lemma keeps_columns_when cond p :
  Scenario.keeps_columns p -> Scenario.keeps_columns (when cond p).
Proof. intros Hp df c H. unfold when. destruct (cond df); [now apply Hp|exact H]. Qed.

Lemma completes_with_assign c rhs : Scenario.completes_with [c] (assign c rhs).
Proof.
  intros df H c' [<-|[]]. unfold assign in *. destruct (rhs df); [|discriminate H].
  cbn. rewrite has_column_set, String.eqb_refl. reflexivity.
Qed.

Lemma completes_with_seq n1 n2 p q :
  Scenario.completes_with n1 p -> Scenario.completes_with n2 q ->
  Scenario.keeps_columns q ->
  Scenario.completes_with (n1 ++ n2) (p >> q).
Proof.
  intros Hp Hq Kq df H c Hin. unfold seq_ in *.
  specialize (Hp df). destruct (p df) as [df' []]; cbn in *; [|discriminate H].
  apply in_app_or in Hin as [Hin|Hin].
  - apply Kq. now apply Hp.
  - now apply Hq.
Qed.


End FramePrograms.

Ltac writes_only :=
  repeat first
    [ apply writes_only_seq
    | apply writes_only_when
    | apply writes_only_skip
    | apply writes_only_assign; cbn; tauto ].

Ltac keeps_columns :=
  repeat first
    [ apply keeps_columns_seq
    | apply keeps_columns_when
    | apply keeps_columns_skip
    | apply keeps_columns_assign ].

Ltac completes_with :=
  repeat first
    [ apply completes_with_assign
    | apply (completes_with_seq [_] _);
      [apply completes_with_assign| |keeps_columns] ].

Ltac run_body :=
  unfold Py.seq_, Py.assign, Py.when;
  repeat (rewrite ?get_set, ?has_column_set;
          cbn [String.eqb Ascii.eqb Bool.eqb mbind option_bind fmap option_fmap option_map
               Py.col_floats fst snd Py.map2 Py.cmp2 orb negb]).

Section IndicatorRuns.
Import Py.








(** Turtle when the [Volume] read fails: the ATR and the four channel
    statements have run. *)
Lemma turtle_volume_read_fails cfg df high low close tr atr :
  get df "High" = Some high -> get df "Low" = Some low -> get df "Close" = Some close ->
  TRANGE high low close = Some tr ->
  (if String.eqb (Turtle.atr_method cfg) "ema"
   then EMA tr (Turtle.atr_period cfg) else SMA tr (Turtle.atr_period cfg)) = Some atr ->
  get df "Volume" = None ->
  Turtle.indicators_body cfg df
  = (set (set (set (set (set df "atr" (FloatCol atr))
                        "high_20" (FloatCol (rolling_max (Turtle.system1_entry cfg) high)))
                   "low_10" (FloatCol (rolling_min (Turtle.system1_exit cfg) low)))
              "high_55" (FloatCol (rolling_max (Turtle.system2_entry cfg) high)))
         "low_20" (FloatCol (rolling_min (Turtle.system2_exit cfg) low)),
     Raised).
Proof.
  intros HH HL HC HT HA HV. unfold Turtle.indicators_body. run_body.
  rewrite HH, HL, HC. run_body. rewrite HT. run_body. rewrite HA. run_body.
  rewrite ?HH, ?HL. run_body. rewrite ?HH, ?HL. run_body.
  rewrite ?HH, ?HL. run_body. rewrite ?HH, ?HL. run_body. rewrite HV. reflexivity.
Qed.


End IndicatorRuns.




(* ===================================================================== *)
(** * Properties of the validator and the cleaner                         *)
(* ===================================================================== *)

(** C10.  An empty series is rejected at once: the report is invalid and
    holds the single error [EmptyData], with no warning and no finding of the
    column or value checks; [validate_price_data] refuses it as well. *)
Theorem empty_series_rejected_first (max_price_deviation : float) (data : Py.frame) :
  Py.empty data = true ->
  Validator.validate_ohlcv_data max_price_deviation data
  = Validator.Report false [Validator.EmptyData] []
  /\ Validator.validate_price_data data = false.
Proof.
  intros H. unfold Validator.validate_ohlcv_data, Validator.validate_price_data.
  rewrite H. split; reflexivity.
Qed.

(** The blank frame misses every required column, yet the report names only
    the emptiness. *)
Lemma empty_series_rejected_first_witness :
  Py.empty Scenario.blank_frame = true
  /\ Validator.validate_ohlcv_data 0.5 Scenario.blank_frame
     = Validator.Report false [Validator.EmptyData] []
  /\ Validator.validate_price_data Scenario.blank_frame = false.
Proof.
  assert (E : Py.empty Scenario.blank_frame = true) by (vm_compute; reflexivity).
  split; [exact E|].
  exact (empty_series_rejected_first 0.5 Scenario.blank_frame E).
Defined.

(** C2 on the code.  The cleaner repairs [High] and [Low] before it fills
    missing values.  On the scenario series the missing [Open] of the middle
    bar is interpolated to 10 after its [High] has been settled at 5: the
    cleaned series keeps all three rows and its middle row has
    [High < Open]. *)
Theorem cleaner_leaves_high_below_filled_open :
  let cleaned := Validator.clean_ohlcv_data Scenario.open_gap_frame in
  Py.nrows cleaned = 3%nat
  /\ Py.get cleaned "Open" = Some [10; 10; 10]%float
  /\ Py.get cleaned "High" = Some [11; 5; 11]%float
  /\ map (Validator.row_ok cleaned) [0; 1; 2]%nat = [true; false; true].
Proof. repeat split; vm_compute; reflexivity. Qed.

(* ===================================================================== *)
(** * Properties of the persistence store                                 *)
(* ===================================================================== *)

Section Dates.

(** Formatting a day and parsing it back gives the day. *)
Lemma strptime_strftime (n : Z) : Date.strptime (Date.strftime n) = n.
Proof.
  unfold Date.strptime, Date.strftime. cbn [Date.year Date.month Date.day].
  repeat match goal with
         | |- context [if ?b then _ else _] => destruct b eqn:?
         end;
    Z.div_mod_to_equations; lia.
Qed.

Lemma date_eqb_eq (a b : Date.ymd) : Date.eqb a b = true <-> a = b.
Proof.
  destruct a, b. unfold Date.eqb. cbn. split.
  - intros H. apply andb_prop in H as [H H3]. apply andb_prop in H as [H1 H2].
    apply Z.eqb_eq in H1, H2, H3. congruence.
  - intros [= -> -> ->]. rewrite !Z.eqb_refl. reflexivity.
Qed.


End Dates.

Section GapResolver.
Import Database.

Lemma lookup_get_missing_dates db symbols end_date days_back sym :
  get_missing_dates db symbols end_date days_back !! sym
  = if bool_decide (sym ∈ symbols)
    then update_start (select_max_date db sym) (Date.strptime end_date)
                      (Date.strptime end_date - days_back)
    else None.
Proof.
  unfold get_missing_dates.
  induction symbols as [|s symbols IH] using rev_ind.
  - cbn. rewrite lookup_empty. reflexivity.
  - rewrite foldl_app. cbn [foldl].
    destruct (decide (s = sym)) as [->|Hne].
    + rewrite bool_decide_eq_true_2 by set_solver.
      destruct (update_start _ _ _) eqn:E.
      * rewrite lookup_insert_eq. reflexivity.
      * rewrite IH. case_bool_decide; [congruence|reflexivity].
    + assert (Hin : sym ∈ symbols ++ [s] <-> sym ∈ symbols) by set_solver.
      rewrite (bool_decide_ext _ _ Hin).
      destruct (update_start (select_max_date db s) _ _);
        [rewrite lookup_insert_ne by exact Hne|]; exact IH.
Qed.

Lemma update_start_monotone latest latest' end_dt start_dt s s' :
  Date.strptime latest <= Date.strptime latest' ->
  update_start (Some latest) end_dt start_dt = Some s ->
  update_start (Some latest') end_dt start_dt = Some s' ->
  Date.strptime s <= Date.strptime s'.
Proof.
  unfold update_start. intros Hle H H'.
  repeat case_match; simplify_eq; rewrite ?strptime_strftime; lia.
Qed.

End GapResolver.

(** C4, as the code has it.  For a fixed [end_date] (asOf) and [days_back]
    (lookbackDays), a later latest stored date never gives an earlier fetch
    start: for a requested symbol with a latest stored date, the symbol is
    omitted once that date is [end_date] or later, and otherwise its start is
    [max(latest + 1 day, end_date - days_back)]; so of two stores the one
    with the later latest date has the later (or equal) start, whenever both
    give one. *)
Theorem fetch_start_grows_with_latest
    (db : Database.table) (symbols : list string) (sym : string)
    (end_date : Date.ymd) (days_back : Z) (latest : Date.ymd) :
  sym ∈ symbols ->
  Database.select_max_date db sym = Some latest ->
  Database.get_missing_dates db symbols end_date days_back !! sym
  = (if Date.strptime end_date <=? Date.strptime latest then None
     else Some (Date.strftime (Z.max (Date.strptime latest + 1)
                                     (Date.strptime end_date - days_back))))
  /\ forall (db' : Database.table) (latest' start start' : Date.ymd),
       Database.select_max_date db' sym = Some latest' ->
       Date.strptime latest <= Date.strptime latest' ->
       Database.get_missing_dates db symbols end_date days_back !! sym = Some start ->
       Database.get_missing_dates db' symbols end_date days_back !! sym = Some start' ->
       Date.strptime start <= Date.strptime start'.
Proof.
  intros Hin Hl. split.
  - rewrite lookup_get_missing_dates, Hl, bool_decide_eq_true_2 by exact Hin.
    unfold Database.update_start.
    repeat case_match; try reflexivity; try lia; f_equal; f_equal; lia.
  - intros db' latest' start start' Hl' Hle.
    rewrite !lookup_get_missing_dates, Hl, Hl'.
    case_bool_decide; [|discriminate].
    apply update_start_monotone. exact Hle.
Qed.

(** With X stored up to 2024-05-20 the start for a scan of 2024-06-01 is
    2024-05-21; with X stored up to 2024-05-25 it is 2024-05-26. *)
Lemma fetch_start_grows_with_latest_witness :
  Database.get_missing_dates [Scenario.x_row (Date.YMD 2024 5 20) 100]
                             ["X"] (Date.YMD 2024 6 1) 190 !! "X"
  = Some (Date.YMD 2024 5 21)
  /\ Date.strptime (Date.YMD 2024 5 21) <= Date.strptime (Date.YMD 2024 5 26).
Proof.
  assert (Hin : "X" ∈ ["X"]) by (apply elem_of_cons; now left).
  assert (Hl : Database.select_max_date [Scenario.x_row (Date.YMD 2024 5 20) 100] "X"
               = Some (Date.YMD 2024 5 20)) by (vm_compute; reflexivity).
  destruct (fetch_start_grows_with_latest
              [Scenario.x_row (Date.YMD 2024 5 20) 100] ["X"] "X"
              (Date.YMD 2024 6 1) 190 (Date.YMD 2024 5 20) Hin Hl) as [F M].
  split.
  - etransitivity; [exact F|]. vm_compute. reflexivity.
  - apply (M [Scenario.x_row (Date.YMD 2024 5 20) 100;
              Scenario.x_row (Date.YMD 2024 5 25) 101]
             (Date.YMD 2024 5 25)).
    + vm_compute. reflexivity.
    + vm_compute. discriminate.
    + vm_compute. reflexivity.
    + vm_compute. reflexivity.
Defined.

(** C4 as stated fails: moving X's latest stored date from 2024-05-20 to
    2024-05-25 moves its fetch start from 2024-05-21 forward to 2024-05-26. *)
Lemma later_latest_gives_later_start :
  Database.get_missing_dates [Scenario.x_row (Date.YMD 2024 5 20) 100]
                             ["X"] (Date.YMD 2024 6 1) 190 !! "X"
  = Some (Date.YMD 2024 5 21)
  /\ Database.get_missing_dates
       [Scenario.x_row (Date.YMD 2024 5 20) 100; Scenario.x_row (Date.YMD 2024 5 25) 101]
       ["X"] (Date.YMD 2024 6 1) 190 !! "X"
     = Some (Date.YMD 2024 5 26)
  /\ Date.strptime (Date.YMD 2024 5 21) + 5 = Date.strptime (Date.YMD 2024 5 26).
Proof. repeat split; vm_compute; reflexivity. Qed.

Section Upsert.
Import Database.


Lemma key_matches_eq (r : row) d s :
  key_matches d s r = true -> date r = Some d /\ symbol r = Some s.
Proof.
  unfold key_matches. destruct (date r), (symbol r); try discriminate.
  intros H. apply andb_prop in H as [H1 H2].
  apply date_eqb_eq in H1. apply String.eqb_eq in H2. subst. auto.
Qed.














End Upsert.



(** Rows without a key are outside the upsert.  The row of 2024-06-01 whose
    symbol is missing is not matched by any delete, and the primary key does
    not bar a NULL: saving it twice stores it twice. *)
Lemma keyless_row_saved_twice_is_stored_twice :
  (Database.save_stock_data
     (Database.save_stock_data [] [Scenario.anonymous_row]).1
     [Scenario.anonymous_row])
  = ([Scenario.anonymous_row; Scenario.anonymous_row], Py.Completed).
Proof. reflexivity. Qed.

Section GapScenario.
Import Database.

Variable s : string.
Variable payload : Z -> gmap string Py.value.

Let mk (i : Z) : row := Row (Some (Date.strftime i)) (Some s) (payload i).

Lemma strftime_inj i j : Date.strftime i = Date.strftime j -> i = j.
Proof.
  intros H. rewrite <- (strptime_strftime i), <- (strptime_strftime j), H. reflexivity.
Qed.

Lemma select_max_date_absent db :
  Forall (fun r => symbol r <> Some s) db -> select_max_date db s = None.
Proof.
  intros H. unfold select_max_date.
  replace (omap _ db) with (@nil Date.ymd); [reflexivity|].
  induction H as [|r db Hr _ IH]; [reflexivity|].
  cbn. destruct (symbol r) as [s'|]; [|exact IH].
  destruct (String.eqb_spec s' s) as [->|_]; [contradiction|exact IH].
Qed.

Lemma key_matches_absent db d :
  Forall (fun r => symbol r <> Some s) db -> Forall (fun r => key_matches d s r = false) db.
Proof.
  intros H. eapply Forall_impl; [exact H|]. cbn. intros r Hr.
  destruct (key_matches d s r) eqn:E; [|reflexivity].
  apply key_matches_eq in E as [_ E]. contradiction.
Qed.

Lemma delete_none d db :
  Forall (fun r => key_matches d s r = false) db -> delete d s db = db.
Proof.
  intros H. unfold delete. induction H as [|r db Hr _ IH]; [reflexivity|].
  rewrite filter_cons_True by exact Hr. f_equal. exact IH.
Qed.

Lemma delete_old_absent db (l : list Z) :
  Forall (fun r => symbol r <> Some s) db -> delete_old db (map mk l) = db.
Proof.
  intros H. unfold delete_old.
  induction l as [|i l IH]; [reflexivity|].
  cbn [map foldl mk date symbol].
  rewrite delete_none by (apply key_matches_absent; exact H). exact IH.
Qed.

Lemma insert_all_fresh (l : list Z) : forall db,
  NoDup l ->
  Forall (fun r => Forall (fun i => key_matches (Date.strftime i) s r = false) l) db ->
  insert_all db (map mk l) = Some (db ++ map mk l).
Proof.
  induction l as [|i l IH]; intros db Hl Hdb.
  - cbn. rewrite app_nil_r. reflexivity.
  - apply NoDup_cons in Hl as [Hi Hl].
    cbn [map insert_all]. unfold conflicts. cbn [mk date symbol].
    replace (existsb _ db) with false.
    + rewrite IH; [rewrite <- app_assoc; reflexivity|exact Hl|].
      apply Forall_app. split.
      * eapply Forall_impl; [exact Hdb|]. cbn. intros r Hr.
        apply Forall_cons in Hr as [_ Hr]. exact Hr.
      * apply Forall_singleton. apply Forall_forall. intros j Hj.
        unfold key_matches. cbn [mk date symbol].
        destruct (Date.eqb (Date.strftime i) (Date.strftime j)) eqn:E; [|reflexivity].
        apply date_eqb_eq, strftime_inj in E. subst. contradiction.
    + symmetry. clear IH. induction Hdb as [|r db Hr _ IHdb]; [reflexivity|].
      cbn. apply Forall_cons in Hr as [Hr _]. rewrite Hr. exact IHdb.
Qed.

Lemma select_max_date_fetched db (l : list Z) :
  Forall (fun r => symbol r <> Some s) db ->
  select_max_date (db ++ map mk l) s = max_date (map Date.strftime l).
Proof.
  intros H. unfold select_max_date. f_equal.
  rewrite omap_app.
  replace (omap _ db) with (@nil Date.ymd).
  - cbn. induction l as [|i l IH]; [reflexivity|].
    cbn [map omap list_omap mk symbol date]. rewrite String.eqb_refl. cbn. f_equal. exact IH.
  - induction H as [|r db Hr _ IH]; [reflexivity|].
    cbn. destruct (symbol r) as [s'|]; [|exact IH].
    destruct (String.eqb_spec s' s) as [->|_]; [contradiction|exact IH].
Qed.

End GapScenario.

(** C5.  X has no stored row.  A scan as of 2024-06-01 with 190 days of
    lookback asks for X from 2023-11-24 and for nothing else; once the daily
    rows of X from that day to 2024-06-01 are saved, the same scan asks for
    nothing. *)
Theorem gap_scenario_2024_06_01
    (db : Database.table) (payload : Z -> gmap string Py.value) :
  Forall (fun r => Database.symbol r <> Some "X") db ->
  Database.get_missing_dates db ["X"] (Date.YMD 2024 6 1) 190
  = {[ "X" := Date.YMD 2023 11 24 ]}
  /\ exists db',
       Database.save_stock_data
         db (Scenario.fetched "X" (Date.strptime (Date.YMD 2023 11 24))
                              (Date.strptime (Date.YMD 2024 6 1)) payload)
       = (db', Py.Completed)
       /\ Database.get_missing_dates db' ["X"] (Date.YMD 2024 6 1) 190 = ∅.
Proof.
  intros H. split.
  - unfold Database.get_missing_dates. cbn [foldl].
    rewrite select_max_date_absent by exact H. reflexivity.
  - set (days := map (fun i : nat => 738848 + Z.of_nat i) (seq 0 191)).
    assert (Ef : Scenario.fetched "X" (Date.strptime (Date.YMD 2023 11 24))
                                  (Date.strptime (Date.YMD 2024 6 1)) payload
                 = map (fun i => Database.Row (Some (Date.strftime i)) (Some "X") (payload i))
                       days).
    { unfold Scenario.fetched, days. rewrite map_map. reflexivity. }
    exists (db ++ map (fun i => Database.Row (Some (Date.strftime i)) (Some "X") (payload i))
                      days).
    split.
    + rewrite Ef. unfold Database.save_stock_data.
      rewrite delete_old_absent by exact H.
      rewrite insert_all_fresh.
      * reflexivity.
      * unfold days. apply NoDup_fmap_2; [|apply NoDup_seq]. intros a b ?. lia.
      * eapply Forall_impl; [exact H|]. cbn. intros r Hr.
        apply Forall_forall. intros i _.
        destruct (Database.key_matches (Date.strftime i) "X" r) eqn:E; [|reflexivity].
        apply key_matches_eq in E as [_ E]. contradiction.
    + unfold Database.get_missing_dates. cbn [foldl].
      rewrite select_max_date_fetched by exact H.
      replace (Database.max_date (map Date.strftime days)) with (Some (Date.YMD 2024 6 1))
        by (vm_compute; reflexivity).
      reflexivity.
Qed.

(** The scenario on a store that holds one row of another instrument. *)
Lemma gap_scenario_2024_06_01_witness :
  Database.get_missing_dates
    [Database.Row (Some (Date.YMD 2024 5 31)) (Some "Y") (Scenario.close_only 7)]
    ["X"] (Date.YMD 2024 6 1) 190
  = {[ "X" := Date.YMD 2023 11 24 ]}
  /\ exists db',
       Database.save_stock_data
         [Database.Row (Some (Date.YMD 2024 5 31)) (Some "Y") (Scenario.close_only 7)]
         (Scenario.fetched "X" (Date.strptime (Date.YMD 2023 11 24))
                           (Date.strptime (Date.YMD 2024 6 1))
                           (fun _ => Scenario.close_only 100))
       = (db', Py.Completed)
       /\ Database.get_missing_dates db' ["X"] (Date.YMD 2024 6 1) 190 = ∅.
Proof.
  apply (gap_scenario_2024_06_01
           [Database.Row (Some (Date.YMD 2024 5 31)) (Some "Y") (Scenario.close_only 7)]
           (fun _ => Scenario.close_only 100)).
  apply Forall_singleton. cbn. discriminate.
Defined.

(* ===================================================================== *)
(** * The rate limiter under two workers                                  *)
(* ===================================================================== *)

(** C8 on the code.  The limiter admits one call per minute and is empty.
    Two queue workers each run the admission check before either records:
    both find the window below quota, both record, and both go on to their
    remote call.  Two calls are admitted at the same instant against a quota
    of one. *)
Theorem two_workers_exceed_quota :
  let s := Limiter.run Scenario.two_workers
                       [Limiter.Run 0; Limiter.Run 1; Limiter.Run 0; Limiter.Run 1] in
  Limiter.workers s = [Limiter.AtCallback; Limiter.AtCallback]
  /\ Limiter.requests (Limiter.limiter s) = [0; 0]
  /\ Limiter.admitted_in_window (Limiter.clock s) (Limiter.limiter s) = 2
  /\ Limiter.max_requests (Limiter.limiter s) = 1.
Proof. repeat split; vm_compute; reflexivity. Qed.

(* ===================================================================== *)
(** * The rate limiter under one worker                                   *)
(* ===================================================================== *)

Section LoneWorker.
Import Limiter.

Lemma filter_length_impl {A} (P Q : A -> Prop)
    `{!forall x, Decision (P x)} `{!forall x, Decision (Q x)} (l : list A) :
  (forall x, P x -> Q x) -> (length (filter P l) <= length (filter Q l))%nat.
Proof.
  intros HPQ. induction l as [|x l IH]; [reflexivity|].
  destruct (decide (P x)) as [HP|HP].
  - rewrite (filter_cons_True P) by exact HP.
    rewrite (filter_cons_True Q) by auto. cbn. lia.
  - rewrite (filter_cons_False P) by exact HP.
    destruct (decide (Q x)) as [HQ|HQ].
    + rewrite (filter_cons_True Q) by exact HQ. cbn. lia.
    + rewrite (filter_cons_False Q) by exact HQ. exact IH.
Qed.

Lemma live_later now now' rl :
  now <= now' -> (length (live now' rl) <= length (live now rl))%nat.
Proof.
  intros H. unfold live. apply filter_length_impl.
  intros t Ht. apply Is_true_true in Ht. apply Is_true_true.
  apply Z.ltb_lt in Ht. apply Z.ltb_lt. lia.
Qed.

Lemma live_le_requests now rl : (length (live now rl) <= length (requests rl))%nat.
Proof. apply length_filter. Qed.

Lemma oldest_in t ts : In (fold_left Z.min ts t) (t :: ts).
Proof.
  revert t. induction ts as [|u ts IH]; intros t; [left; reflexivity|].
  cbn [fold_left]. destruct (IH (Z.min t u)) as [H|H].
  - rewrite <- H. destruct (Z.min_spec t u) as [[_ ->]|[_ ->]]; cbn; auto.
  - right. right. exact H.
Qed.

Lemma live_after_expiry now rl t :
  In t (requests rl) -> t + window_us rl <= now ->
  (length (live now rl) < length (requests rl))%nat.
Proof.
  intros Hin Ht. unfold live. apply (length_filter_lt _ _ t).
  - apply list_elem_of_In. exact Hin.
  - intros H. apply Is_true_true, Z.ltb_lt in H. lia.
Qed.

Lemma live_record now rl :
  (length (live now (record_request now rl)) <= length (live now rl) + 1)%nat.
Proof.
  unfold live, record_request, window_us. cbn [requests time_window].
  rewrite filter_app, length_app. apply Nat.add_le_mono_l.
  apply (length_filter _ [now]).
Qed.

Lemma admitted_le_live now rl :
  admitted_in_window now rl <= Z.of_nat (length (live now rl)).
Proof.
  unfold admitted_in_window, live. apply inj_le. apply filter_length_impl.
  intros t Ht. apply Is_true_true in Ht. apply Is_true_true.
  apply andb_prop in Ht as [Ht _]. exact Ht.
Qed.

Lemma lone_worker_step s e :
  1 <= max_requests (limiter s) ->
  lone_worker_inv s ->
  lone_worker_inv (step s e)
  /\ max_requests (limiter (step s e)) = max_requests (limiter s).
Proof.
  intros Hmax Hinv. unfold lone_worker_inv in *.
  destruct s as [now rl ws]. cbn [clock limiter workers] in *.
  destruct ws as [|p [|q ws]]; try contradiction; [|destruct p; contradiction].
  destruct e as [dt|[|w]]; cbn [step clock limiter workers lookup list_lookup];
    [|destruct p|split; [exact Hinv|reflexivity]].
  - (* time passes *)
    split; [|reflexivity].
    pose proof (live_later now (now + Z.max 0 dt) rl ltac:(lia)).
    destruct p; try lia; exact Hinv.
  - (* can_make_request *)
    cbn [step_worker can_make_request]. fold (live now rl).
    destruct (Z.of_nat (length (live now rl)) <? max_requests rl) eqn:E;
      cbn [clock limiter workers max_requests requests time_window list_insert
           insert window_us]; (split; [|reflexivity]).
    + apply Z.ltb_lt in E.
      pose proof (live_le_requests now (Build (max_requests rl) (time_window rl) (live now rl))).
      cbn in *. lia.
    + apply Z.ltb_ge in E. split; [|exact Hinv].
      intros Hnil. rewrite Hnil in E. cbn in E. lia.
  - (* get_wait_time *)
    cbn [step_worker clock limiter workers list_insert insert]. split; [|reflexivity].
    destruct Hinv as [Hne Hlen]. split; [exact Hlen|].
    unfold get_wait_time. destruct (requests rl) as [|t ts] eqn:Er; [contradiction|].
    exists (fold_left Z.min ts t). split; [apply oldest_in|]. lia.
  - (* time.sleep *)
    cbn [step_worker]. destruct Hinv as [Hlen (t & Hin & Ht)].
    destruct (until <=? now) eqn:E;
      cbn [clock limiter workers list_insert insert]; (split; [|reflexivity]).
    + apply Z.leb_le in E.
      pose proof (live_after_expiry now rl t Hin ltac:(lia)). lia.
    + split; [exact Hlen|]. exists t. auto.
  - (* record_request *)
    cbn [step_worker record_request clock limiter workers list_insert insert
         max_requests]. split; [|reflexivity].
    pose proof (live_record now rl). lia.
  - (* the callback *)
    cbn [step_worker clock limiter workers list_insert insert]. split; [exact Hinv|reflexivity].
Qed.

Lemma lone_worker_run es : forall s,
  1 <= max_requests (limiter s) ->
  lone_worker_inv s ->
  lone_worker_inv (run s es)
  /\ max_requests (limiter (run s es)) = max_requests (limiter s).
Proof.
  unfold run. induction es as [|e es IH]; intros s Hmax Hinv; [auto|].
  cbn [foldl]. destruct (lone_worker_step s e Hmax Hinv) as [Hinv' Hmax'].
  destruct (IH (step s e) ltac:(lia) Hinv') as [H1 H2]. split; [exact H1|lia].
Qed.

Lemma lone_worker_inv_quota s :
  lone_worker_inv s ->
  admitted_in_window (clock s) (limiter s) <= max_requests (limiter s).
Proof.
  unfold lone_worker_inv. intros H.
  pose proof (admitted_le_live (clock s) (limiter s)).
  pose proof (live_le_requests (clock s) (limiter s)).
  destruct (workers s) as [|p [|q ws]]; try contradiction; [|destruct p; contradiction].
  destruct p; lia.
Qed.

End LoneWorker.

(** With a single worker the quota holds.  From an empty limiter with a
    quota of at least one, whatever the worker's statements and the passage of
    time between them, the calls recorded in the trailing window never exceed
    [max_requests]. *)
Theorem lone_worker_respects_quota
    (max_requests time_window : Z) (es : list Limiter.event) :
  1 <= max_requests ->
  let s := Limiter.run (Limiter.System 0 (Limiter.Build max_requests time_window [])
                                       [Limiter.AtCheck]) es in
  Limiter.admitted_in_window (Limiter.clock s) (Limiter.limiter s) <= max_requests.
Proof.
  intros Hmax s.
  destruct (lone_worker_run es
              (Limiter.System 0 (Limiter.Build max_requests time_window [])
                              [Limiter.AtCheck])) as [Hinv Hm].
  - exact Hmax.
  - cbn. lia.
  - fold s in Hinv, Hm. cbn in Hm. rewrite <- Hm. apply lone_worker_inv_quota. exact Hinv.
Qed.

(** One worker, one call per minute: the second request waits out the minute
    and a single call stands in the window when it is admitted. *)
Lemma lone_worker_respects_quota_witness :
  let s := Limiter.run
             (Limiter.System 0 (Limiter.Build 1 60 []) [Limiter.AtCheck])
             [Limiter.Run 0; Limiter.Run 0; Limiter.Run 0; Limiter.Tick 1000000;
              Limiter.Run 0; Limiter.Run 0; Limiter.Tick 59000000; Limiter.Run 0;
              Limiter.Run 0] in
  Limiter.requests (Limiter.limiter s) = [0; 60000000]
  /\ Limiter.admitted_in_window (Limiter.clock s) (Limiter.limiter s) <= 1.
Proof.
  split; [vm_compute; reflexivity|].
  apply (lone_worker_respects_quota 1 60). lia.
Defined.

(* ===================================================================== *)
(** * The order of binary64 numbers                                       *)
(* ===================================================================== *)

(** Comparisons of floats are those of their decoded form ([Prim2SF]):
    NaN is unordered, the other values form a total preorder in which the
    two zeros are equal. *)

Section FloatOrderFacts.
Import Py FloatOrder.

Lemma SFcompare_refl (x : spec_float) :
  x <> S754_nan -> SFcompare x x = Some Eq.
Proof.
  destruct x as [s|s| |s m e]; cbn; try congruence.
  - now destruct s.
  - intros _. rewrite Z.compare_refl.
    change (Pos.compare_cont Eq m m) with (Pos.compare m m).
    rewrite Pos.compare_refl. now destruct s.
Qed.

Lemma SFcompare_antisym (x y : spec_float) :
  SFcompare y x = option_map CompOpp (SFcompare x y).
Proof.
  destruct x as [s1|s1| |s1 m1 e1], y as [s2|s2| |s2 m2 e2]; cbn;
    try destruct s1; try destruct s2; cbn; try reflexivity.
  - rewrite (Z.compare_antisym e1 e2).
    change (Pos.compare_cont Eq ?a ?b) with (Pos.compare a b).
    rewrite (Pos.compare_antisym m1 m2).
    destruct (e1 ?= e2); cbn; reflexivity.
  - rewrite (Z.compare_antisym e1 e2).
    change (Pos.compare_cont Eq ?a ?b) with (Pos.compare a b).
    rewrite (Pos.compare_antisym m1 m2).
    destruct (e1 ?= e2); cbn; reflexivity.
Qed.

(** The lexicographic comparison of exponent and mantissa. *)
Lemma lex_le_trans (e1 e2 e3 : Z) (m1 m2 m3 : positive) :
  match (e1 ?= e2) with Lt => Lt | Gt => Gt | Eq => (m1 ?= m2)%positive end <> Gt ->
  match (e2 ?= e3) with Lt => Lt | Gt => Gt | Eq => (m2 ?= m3)%positive end <> Gt ->
  match (e1 ?= e3) with Lt => Lt | Gt => Gt | Eq => (m1 ?= m3)%positive end <> Gt.
Proof.
  destruct (Z.compare_spec e1 e2), (Z.compare_spec e2 e3), (Z.compare_spec e1 e3);
    try lia; try congruence;
    destruct (Pos.compare_spec m1 m2), (Pos.compare_spec m2 m3),
             (Pos.compare_spec m1 m3); try lia; congruence.
Qed.

Lemma lex_ge_trans (e1 e2 e3 : Z) (m1 m2 m3 : positive) :
  match (e1 ?= e2) with Lt => Lt | Gt => Gt | Eq => (m1 ?= m2)%positive end <> Lt ->
  match (e2 ?= e3) with Lt => Lt | Gt => Gt | Eq => (m2 ?= m3)%positive end <> Lt ->
  match (e1 ?= e3) with Lt => Lt | Gt => Gt | Eq => (m1 ?= m3)%positive end <> Lt.
Proof.
  destruct (Z.compare_spec e1 e2), (Z.compare_spec e2 e3), (Z.compare_spec e1 e3);
    try lia; try congruence;
    destruct (Pos.compare_spec m1 m2), (Pos.compare_spec m2 m3),
             (Pos.compare_spec m1 m3); try lia; congruence.
Qed.

Lemma SFleb_trans (x y z : spec_float) :
  SFleb x y = true -> SFleb y z = true -> SFleb x z = true.
Proof.
  unfold SFleb.
  destruct x as [s1|s1| |s1 m1 e1], y as [s2|s2| |s2 m2 e2], z as [s3|s3| |s3 m3 e3];
    cbn; try destruct s1; try destruct s2; try destruct s3; cbn;
    try reflexivity; try discriminate; intros H1 H2.
  - (* three negative finite numbers *)
    change (Pos.compare_cont Eq ?a ?b) with (Pos.compare a b) in *.
    assert (G := lex_ge_trans e1 e2 e3 m1 m2 m3).
    destruct (e1 ?= e2), (e2 ?= e3), (e1 ?= e3);
      try discriminate; try reflexivity;
      destruct (m1 ?= m2)%positive, (m2 ?= m3)%positive, (m1 ?= m3)%positive;
      cbn in *; try discriminate; try reflexivity;
      exfalso; apply G; congruence.
  - change (Pos.compare_cont Eq ?a ?b) with (Pos.compare a b) in *.
    assert (G := lex_le_trans e1 e2 e3 m1 m2 m3).
    destruct (e1 ?= e2), (e2 ?= e3), (e1 ?= e3);
      try discriminate; try reflexivity;
      destruct (m1 ?= m2)%positive, (m2 ?= m3)%positive, (m1 ?= m3)%positive;
      cbn in *; try discriminate; try reflexivity;
      exfalso; apply G; congruence.
Qed.

Lemma isnan_spec (x : float) : isnan x = true <-> Prim2SF x = S754_nan.
Proof.
  unfold isnan. rewrite FloatAxioms.eqb_spec. unfold SFeqb.
  destruct (Prim2SF x) eqn:E.
  - cbn. split; discriminate.
  - cbn. destruct s; split; discriminate.
  - cbn. split; reflexivity.
  - rewrite SFcompare_refl by discriminate. cbn. split; discriminate.
Qed.

Lemma isnan_false (x : float) : isnan x = false <-> Prim2SF x <> S754_nan.
Proof.
  rewrite <- isnan_spec. destruct (isnan x); split; congruence.
Qed.

(** [x <= y] holds for ordered values only. *)
Lemma leb_not_nan (x y : float) :
  (x <=? y)%float = true -> isnan x = false /\ isnan y = false.
Proof.
  rewrite FloatAxioms.leb_spec, !isnan_false. unfold SFleb.
  destruct (Prim2SF x), (Prim2SF y); cbn; try discriminate; split; discriminate.
Qed.

Lemma ltb_not_nan (x y : float) :
  (x <? y)%float = true -> isnan x = false /\ isnan y = false.
Proof.
  rewrite FloatAxioms.ltb_spec, !isnan_false. unfold SFltb.
  destruct (Prim2SF x), (Prim2SF y); cbn; try discriminate; split; discriminate.
Qed.

Lemma leb_refl (x : float) : isnan x = false -> (x <=? x)%float = true.
Proof.
  rewrite isnan_false, FloatAxioms.leb_spec. intros H. unfold SFleb.
  now rewrite SFcompare_refl.
Qed.

Lemma leb_trans (x y z : float) :
  (x <=? y)%float = true -> (y <=? z)%float = true -> (x <=? z)%float = true.
Proof. rewrite !FloatAxioms.leb_spec. apply SFleb_trans. Qed.

(** On ordered values [<] is the negation of the converse [<=]. *)
Lemma ltb_negb_leb (x y : float) :
  isnan x = false -> isnan y = false -> (x <? y)%float = negb (y <=? x)%float.
Proof.
  rewrite !isnan_false, FloatAxioms.ltb_spec, FloatAxioms.leb_spec. unfold SFltb, SFleb.
  rewrite (SFcompare_antisym (Prim2SF x) (Prim2SF y)). intros Hx Hy.
  destruct (SFcompare (Prim2SF x) (Prim2SF y)) as [[ | | ]|] eqn:E;
    cbn; try reflexivity.
  destruct (Prim2SF x), (Prim2SF y); cbn in E; congruence.
Qed.

Lemma ltb_leb (x y : float) : (x <? y)%float = true -> (x <=? y)%float = true.
Proof.
  rewrite FloatAxioms.ltb_spec, FloatAxioms.leb_spec. unfold SFltb, SFleb.
  now destruct (SFcompare _ _) as [[ | | ]|].
Qed.

(** [x < y] is never true when [y <= x]. *)
Lemma leb_ltb_false (x y : float) :
  (y <=? x)%float = true -> (x <? y)%float = false.
Proof.
  intros H. destruct (leb_not_nan _ _ H) as [Hy Hx].
  rewrite ltb_negb_leb by assumption. now rewrite H.
Qed.

Lemma ltb_false_leb (x y : float) :
  isnan x = false -> isnan y = false ->
  (x <? y)%float = false -> (y <=? x)%float = true.
Proof.
  intros Hx Hy. rewrite ltb_negb_leb by assumption.
  now destruct (y <=? x)%float.
Qed.

Lemma ltb_leb_trans (x y z : float) :
  (x <? y)%float = true -> (y <=? z)%float = true -> (x <? z)%float = true.
Proof.
  intros H1 H2.
  destruct (ltb_not_nan _ _ H1) as [Hx Hy].
  destruct (leb_not_nan _ _ H2) as [_ Hz].
  rewrite ltb_negb_leb by assumption.
  destruct (z <=? x)%float eqn:E; [|reflexivity].
  rewrite (ltb_negb_leb x y) in H1 by assumption.
  now rewrite (leb_trans _ _ _ H2 E) in H1.
Qed.

Lemma leb_ltb_trans (x y z : float) :
  (x <=? y)%float = true -> (y <? z)%float = true -> (x <? z)%float = true.
Proof.
  intros H1 H2.
  destruct (leb_not_nan _ _ H1) as [Hx Hy].
  destruct (ltb_not_nan _ _ H2) as [_ Hz].
  rewrite ltb_negb_leb by assumption.
  destruct (z <=? x)%float eqn:E; [|reflexivity].
  rewrite (ltb_negb_leb y z) in H2 by assumption.
  now rewrite (leb_trans _ _ _ E H1) in H2.
Qed.

(** ** Maxima and minima *)

Lemma fmax_cases (a b : float) : fmax a b = a \/ fmax a b = b.
Proof. unfold fmax. destruct (a <? b)%float; auto. Qed.

Lemma fmin_cases (a b : float) : fmin a b = a \/ fmin a b = b.
Proof. unfold fmin. destruct (b <? a)%float; auto. Qed.

Lemma fmax_not_nan (a b : float) :
  isnan a = false -> isnan b = false -> isnan (fmax a b) = false.
Proof. destruct (fmax_cases a b) as [-> | ->]; auto. Qed.

Lemma fmin_not_nan (a b : float) :
  isnan a = false -> isnan b = false -> isnan (fmin a b) = false.
Proof. destruct (fmin_cases a b) as [-> | ->]; auto. Qed.

Lemma fmax_ge_l (a b : float) :
  isnan a = false -> isnan b = false -> (a <=? fmax a b)%float = true.
Proof.
  intros Ha Hb. unfold fmax. destruct (a <? b)%float eqn:E.
  - now apply ltb_leb.
  - now apply leb_refl.
Qed.

Lemma fmax_ge_r (a b : float) :
  isnan a = false -> isnan b = false -> (b <=? fmax a b)%float = true.
Proof.
  intros Ha Hb. unfold fmax. destruct (a <? b)%float eqn:E.
  - now apply leb_refl.
  - now apply ltb_false_leb.
Qed.

Lemma fmin_le_l (a b : float) :
  isnan a = false -> isnan b = false -> (fmin a b <=? a)%float = true.
Proof.
  intros Ha Hb. unfold fmin. destruct (b <? a)%float eqn:E.
  - now apply ltb_leb.
  - now apply leb_refl.
Qed.

Lemma fmin_le_r (a b : float) :
  isnan a = false -> isnan b = false -> (fmin a b <=? b)%float = true.
Proof.
  intros Ha Hb. unfold fmin. destruct (b <? a)%float eqn:E.
  - now apply leb_refl.
  - now apply ltb_false_leb.
Qed.

Lemma fold_fmax_not_nan (l : list float) (a : float) :
  isnan a = false -> ordered l -> isnan (fold_left fmax l a) = false.
Proof.
  revert a. induction l as [|x l IH]; intros a Ha Hl; cbn; [exact Ha|].
  inversion Hl; subst. apply IH; [now apply fmax_not_nan | assumption].
Qed.

Lemma fold_fmax_ge_init (l : list float) (a : float) :
  isnan a = false -> ordered l -> (a <=? fold_left fmax l a)%float = true.
Proof.
  revert a. induction l as [|x l IH]; intros a Ha Hl; cbn.
  - now apply leb_refl.
  - inversion Hl; subst.
    eapply leb_trans; [apply (fmax_ge_l a x); assumption|].
    apply IH; [now apply fmax_not_nan | assumption].
Qed.

Lemma fold_fmax_ge (l : list float) (a x : float) :
  isnan a = false -> ordered l -> In x l -> (x <=? fold_left fmax l a)%float = true.
Proof.
  revert a. induction l as [|y l IH]; intros a Ha Hl Hin; [destruct Hin|].
  inversion Hl; subst. cbn. destruct Hin as [-> | Hin].
  - eapply leb_trans; [apply (fmax_ge_r a x); assumption|].
    apply fold_fmax_ge_init; [now apply fmax_not_nan | assumption].
  - apply IH; [now apply fmax_not_nan | assumption | assumption].
Qed.

Lemma fold_fmin_not_nan (l : list float) (a : float) :
  isnan a = false -> ordered l -> isnan (fold_left fmin l a) = false.
Proof.
  revert a. induction l as [|x l IH]; intros a Ha Hl; cbn; [exact Ha|].
  inversion Hl; subst. apply IH; [now apply fmin_not_nan | assumption].
Qed.

Lemma fold_fmin_le_init (l : list float) (a : float) :
  isnan a = false -> ordered l -> (fold_left fmin l a <=? a)%float = true.
Proof.
  revert a. induction l as [|x l IH]; intros a Ha Hl; cbn.
  - now apply leb_refl.
  - inversion Hl; subst.
    eapply leb_trans; [|apply (fmin_le_l a x); assumption].
    apply IH; [now apply fmin_not_nan | assumption].
Qed.

Lemma fold_fmin_le (l : list float) (a x : float) :
  isnan a = false -> ordered l -> In x l -> (fold_left fmin l a <=? x)%float = true.
Proof.
  revert a. induction l as [|y l IH]; intros a Ha Hl Hin; [destruct Hin|].
  inversion Hl; subst. cbn. destruct Hin as [-> | Hin].
  - eapply leb_trans; [|apply (fmin_le_r a x); assumption].
    apply fold_fmin_le_init; [now apply fmin_not_nan | assumption].
  - apply IH; [now apply fmin_not_nan | assumption | assumption].
Qed.

(** The maximum of a window without NaN bounds each of its cells. *)
Lemma window_max_ge (w : list float) (x : float) :
  ordered w -> In x w -> (x <=? window_max w)%float = true.
Proof.
  destruct w as [|a w]; [intros _ []|].
  intros Hw Hin. inversion Hw; subst. cbn.
  destruct Hin as [-> | Hin].
  - now apply fold_fmax_ge_init.
  - now apply fold_fmax_ge.
Qed.

Lemma window_min_le (w : list float) (x : float) :
  ordered w -> In x w -> (window_min w <=? x)%float = true.
Proof.
  destruct w as [|a w]; [intros _ []|].
  intros Hw Hin. inversion Hw; subst. cbn.
  destruct Hin as [-> | Hin].
  - now apply fold_fmin_le_init.
  - now apply fold_fmin_le.
Qed.

End FloatOrderFacts.

(* ===================================================================== *)
(** * Properties of the screening loop                                    *)
(* ===================================================================== *)

Section RollingWindows.
Import Py FloatOrder.

Lemma rolling_length (agg : list float -> float) (n : nat) (l : list float) :
  length (rolling agg n l) = length l.
Proof. unfold rolling. now rewrite length_map, length_seq. Qed.

Lemma ltb_nan_l (x : float) : (nan <? x)%float = false.
Proof.
  destruct (nan <? x)%float eqn:E; [|reflexivity].
  apply ltb_not_nan in E. destruct E as [E _]. discriminate E.
Qed.

(** The last cell of a rolling maximum is NaN or bounds the last cell of the
    series from above: the window ends at the current row. *)
Lemma rolling_max_last (n : nat) (l : list float) (x m : float) :
  last l = Some x -> last (rolling_max n l) = Some m ->
  isnan m = true \/ (x <=? m)%float = true.
Proof.
  intros Hx Hm. unfold rolling_max, rolling in Hm.
  rewrite last_lookup in Hx, Hm. rewrite length_map, length_seq in Hm.
  rewrite list_lookup_fmap in Hm.
  destruct (seq 0 (length l) !! Nat.pred (length l)) as [i|] eqn:Ei;
    [|discriminate Hm].
  cbn in Hm. injection Hm as <-.
  apply lookup_seq in Ei. destruct Ei as [-> Hlt]. cbn [Nat.add].
  destruct ((n <=? S (Nat.pred (length l)))%nat
            && forallb (fun x0 => negb (isnan x0))
                 (take n (drop (S (Nat.pred (length l)) - n) l))) eqn:G;
    [|left; reflexivity].
  apply andb_true_iff in G. destruct G as [Gn Gw].
  apply Nat.leb_le in Gn.
  destruct n as [|n].
  { left. reflexivity. }
  right. apply window_max_ge.
  - unfold ordered. apply Forall_forall. intros y Hy.
    rewrite forallb_forall in Gw. apply list_elem_of_In in Hy.
    specialize (Gw y Hy). now destruct (isnan y).
  - apply list_elem_of_In. apply list_elem_of_lookup.
    exists (Nat.pred (length l) - (S (Nat.pred (length l)) - S n))%nat.
    rewrite lookup_take_lt by lia. rewrite lookup_drop.
    replace (S (Nat.pred (length l)) - S n +
             (Nat.pred (length l) - (S (Nat.pred (length l)) - S n)))%nat
      with (Nat.pred (length l)) by lia.
    exact Hx.
Qed.

Lemma last_zip_with {A B C} (f : A -> B -> C) (l : list A) (k : list B) :
  length l = length k ->
  last (zip_with f l k) =
  match last l, last k with Some a, Some b => Some (f a b) | _, _ => None end.
Proof.
  intros E. rewrite !last_lookup, length_zip_with, <- E, Nat.min_id.
  rewrite lookup_zip_with.
  destruct (l !! Nat.pred (length l)) as [a|]; cbn; [|reflexivity].
  now destruct (k !! Nat.pred (length l)).
Qed.

(** A breakout flag computed against a rolling maximum of the highs is
    false on the last row unless the last close exceeds the last high. *)
Lemma breakout_last_false (n : nat) (highs closes : list float) :
  length highs = length closes ->
  (forall h c, last highs = Some h -> last closes = Some c -> (h <? c)%float = false) ->
  forall b, last (zip_with (fun c h => (c >? h)%float) closes (rolling_max n highs))
            = Some b -> b = false.
Proof.
  intros E H b Hb.
  rewrite last_zip_with in Hb by (unfold rolling_max; now rewrite rolling_length).
  destruct (last closes) as [c|] eqn:Ec; [|discriminate Hb].
  destruct (last (rolling_max n highs)) as [m|] eqn:Em; [|discriminate Hb].
  injection Hb as <-.
  destruct (last highs) as [h|] eqn:Eh.
  - specialize (H h c eq_refl eq_refl).
    destruct (rolling_max_last n highs h m Eh Em) as [N|L].
    + destruct (m <? c)%float eqn:G; [|reflexivity].
      apply ltb_not_nan in G. destruct G as [G _]. congruence.
    + destruct (m <? c)%float eqn:G; [|reflexivity].
      rewrite (leb_ltb_trans _ _ _ L G) in H. discriminate H.
  - rewrite last_None in Eh. subst highs.
    destruct closes; [discriminate Ec|discriminate E].
Qed.

End RollingWindows.

Section TurtleScreening.
Import Py FloatOrder.

Variable cfg : Turtle.config.
Variable df : frame.
Hypothesis Hrun : (Turtle.indicators_body cfg df).2 = Completed.

(** When the [try] block of [calculate_indicators] runs to its end, the
    price and volume columns were numeric and equally long, and the TA-Lib
    calls went through. *)
Lemma turtle_completed_inputs :
  exists highs lows closes vols tr atr rsi,
    get df "High" = Some highs /\ get df "Low" = Some lows
    /\ get df "Close" = Some closes /\ get df "Volume" = Some vols
    /\ TRANGE highs lows closes = Some tr
    /\ (if String.eqb (Turtle.atr_method cfg) "ema"
        then EMA tr (Turtle.atr_period cfg) else SMA tr (Turtle.atr_period cfg)) = Some atr
    /\ RSI closes 14 = Some rsi.
Proof.
  revert Hrun.
  destruct (get df "High") as [highs|] eqn:HH;
    [|unfold Turtle.indicators_body, seq_, assign; rewrite HH; discriminate].
  destruct (get df "Low") as [lows|] eqn:HL;
    [|unfold Turtle.indicators_body, seq_, assign; rewrite HH, HL; discriminate].
  destruct (get df "Close") as [closes|] eqn:HC;
    [|unfold Turtle.indicators_body, seq_, assign; rewrite HH, HL, HC; discriminate].
  destruct (TRANGE highs lows closes) as [tr|] eqn:HT;
    [|unfold Turtle.indicators_body, seq_, assign; rewrite HH, HL, HC; cbn;
      rewrite HT; discriminate].
  destruct (if String.eqb (Turtle.atr_method cfg) "ema"
            then EMA tr (Turtle.atr_period cfg) else SMA tr (Turtle.atr_period cfg))
    as [atr|] eqn:HA;
    [|unfold Turtle.indicators_body, seq_, assign; rewrite HH, HL, HC; cbn;
      rewrite HT; cbn; rewrite HA; discriminate].
  destruct (get df "Volume") as [vols|] eqn:HV;
    [|rewrite (turtle_volume_read_fails cfg df highs lows closes tr atr) by assumption;
      discriminate].
  destruct (RSI closes 14) as [rsi|] eqn:HR.
  - intros _. exists highs, lows, closes, vols, tr, atr, rsi. auto 10.
  - unfold Turtle.indicators_body. run_body.
    rewrite HH, HL, HC. run_body. rewrite HT. run_body. rewrite HA. run_body.
    repeat (rewrite ?HH, ?HL, ?HC, ?HV; run_body).
    rewrite HR. discriminate.
Qed.

Lemma trange_lengths (highs lows closes tr : list float) :
  TRANGE highs lows closes = Some tr -> length highs = length closes.
Proof.
  unfold TRANGE.
  destruct (length highs =? length lows)%nat eqn:E1; [|discriminate].
  destruct (length highs =? length closes)%nat eqn:E2; [|discriminate].
  intros _. now apply Nat.eqb_eq.
Qed.

Variables highs closes : list float.
Hypothesis HH : get df "High" = Some highs.
Hypothesis HC : get df "Close" = Some closes.

(** The two breakout columns the block leaves are the comparisons of the
    closes with the rolling highs. *)
Lemma turtle_indicators_breakouts :
  columns (Turtle.calculate_indicators cfg df) !! "system1_breakout"
  = Some (cmp2 (fun c h => (c >? h)%float) closes
               (rolling_max (Turtle.system1_entry cfg) highs))
  /\ columns (Turtle.calculate_indicators cfg df) !! "system2_breakout"
     = Some (cmp2 (fun c h => (c >? h)%float) closes
                  (rolling_max (Turtle.system2_entry cfg) highs)).
Proof.
  destruct turtle_completed_inputs
    as (highs' & lows & closes' & vols & tr & atr & rsi & HH' & HL & HC' & HV & HT & HA & HR).
  rewrite HH in HH'. injection HH' as <-. rewrite HC in HC'. injection HC' as <-.
  unfold Turtle.calculate_indicators, Turtle.indicators_body. run_body.
  rewrite HH, HL, HC. run_body. rewrite HT. run_body. rewrite HA. run_body.
  repeat (rewrite ?HH, ?HL, ?HC, ?HV, ?HR; run_body).
  split.
  - cbn [set columns]. rewrite lookup_insert_ne by discriminate.
    now rewrite lookup_insert_eq.
  - cbn [set columns]. now rewrite lookup_insert_eq.
Qed.

Lemma turtle_lengths : length highs = length closes.
Proof.
  destruct turtle_completed_inputs
    as (highs' & lows & closes' & vols & tr & atr & rsi & HH' & HL & HC' & HV & HT & HA & HR).
  rewrite HH in HH'. injection HH' as <-. rewrite HC in HC'. injection HC' as <-.
  exact (trange_lengths _ _ _ _ HT).
Qed.

Hypothesis Hbar :
  forall h c, last highs = Some h -> last closes = Some c -> (h <? c)%float = false.

Lemma turtle_flags_false :
  Turtle.flag (last_row (Turtle.calculate_indicators cfg df)) "system1_breakout" = false
  /\ Turtle.flag (last_row (Turtle.calculate_indicators cfg df)) "system2_breakout" = false.
Proof.
  destruct turtle_indicators_breakouts as [E1 E2].
  pose proof turtle_lengths as Hlen.
  unfold Turtle.flag, last_row, row.
  rewrite !(lookup_omap col_last), E1, E2.
  unfold cmp2. cbn [mbind option_bind col_last].
  split.
  - match goal with |- context [last ?l] => destruct (last l) as [b|] eqn:Eb end;
      cbn; [|reflexivity].
    now apply (breakout_last_false _ _ _ Hlen Hbar) in Eb.
  - match goal with |- context [last ?l] => destruct (last l) as [b|] eqn:Eb end;
      cbn; [|reflexivity].
    now apply (breakout_last_false _ _ _ Hlen Hbar) in Eb.
Qed.

Lemma turtle_never_breaks_out (symbol : string) (account_value : float) :
  Screener.turtle_signals cfg symbol df account_value = [].
Proof.
  destruct turtle_flags_false as [F1 F2].
  unfold Screener.turtle_signals, Turtle.detect_signals.
  cbv zeta. rewrite F1, F2. cbn [app].
  repeat (case_match; try reflexivity).
  all: repeat match goal with
         | |- context [mbind _ ?m] => destruct m; cbn [mbind option_bind default]
         | |- context [if ?b then _ else _] => destruct b
         end; reflexivity.
Qed.

End TurtleScreening.

(** X2.  As the screener runs the Turtle strategy ([calculate_indicators]
    and then [detect_signals]), whenever the indicator computation runs to
    its end without an error, no signal is emitted unless the close of the
    last bar is strictly above the high of that same bar: the rolling maxima
    [high_20] and [high_55] include the current bar's high, so
    [Close > high_20] and [Close > high_55] are false on every consistent
    bar.  (When the computation fails, for instance on an ATR period outside
    TA-Lib's range, the frame keeps the breakout flags it came with and the
    statement does not apply.) *)
Theorem turtle_silent_on_consistent_last_bar
    (cfg : Turtle.config) (symbol : string) (df : Py.frame) (account_value : float)
    (highs closes : list float) :
  (Turtle.indicators_body cfg df).2 = Py.Completed ->
  Py.get df "High" = Some highs ->
  Py.get df "Close" = Some closes ->
  (forall h c, last highs = Some h -> last closes = Some c -> (h <? c)%float = false) ->
  Screener.turtle_signals cfg symbol df account_value = [].
Proof.
  intros Hrun HH HC Hbar.
  exact (turtle_never_breaks_out cfg df Hrun highs closes HH HC Hbar
                                 symbol account_value).
Qed.

Lemma turtle_silent_on_consistent_last_bar_witness :
  Screener.turtle_signals Turtle.default_config "X" Scenario.coiled_frame 100000 = [].
Proof.
  apply (turtle_silent_on_consistent_last_bar
           Turtle.default_config "X" Scenario.coiled_frame 100000
           (map (fun c => (c + 1)%float) Scenario.coiled_closes)
           Scenario.coiled_closes).
  - vm_compute. reflexivity.
  - reflexivity.
  - reflexivity.
  - intros h c Hh Hc. vm_compute in Hh, Hc.
    injection Hh as <-. injection Hc as <-. vm_compute. reflexivity.
Defined.

(* ===================================================================== *)
(** * Properties of the rate limiter's methods                            *)
(* ===================================================================== *)

Section LimiterMethods.
Import Limiter.

Lemma fold_min_le_init (ts : list Z) (t : Z) : fold_left Z.min ts t <= t.
Proof.
  revert t. induction ts as [|x ts IH]; intros t; cbn; [lia|].
  specialize (IH (Z.min t x)). lia.
Qed.

Lemma fold_min_le (ts : list Z) (t x : Z) : In x ts -> fold_left Z.min ts t <= x.
Proof.
  revert t. induction ts as [|y ts IH]; intros t Hin; [destruct Hin|].
  cbn. destruct Hin as [-> | Hin].
  - pose proof (fold_min_le_init ts (Z.min t x)). lia.
  - now apply IH.
Qed.

Lemma fold_min_in (ts : list Z) (t : Z) :
  fold_left Z.min ts t = t \/ In (fold_left Z.min ts t) ts.
Proof.
  revert t. induction ts as [|y ts IH]; intros t; cbn; [now left|].
  destruct (IH (Z.min t y)) as [E | Hin].
  - rewrite E. destruct (Z.min_spec t y) as [[_ ->] | [_ ->]]; auto.
  - right. now right.
Qed.

(** The oldest stamp is a stamp, and no stamp is older. *)
Lemma oldest_request_spec (t : Z) (ts : list Z) :
  In (fold_left Z.min ts t) (t :: ts)
  /\ forall x, In x (t :: ts) -> fold_left Z.min ts t <= x.
Proof.
  split.
  - destruct (fold_min_in ts t) as [-> | H]; [now left | now right].
  - intros x [<- | Hin]; [apply fold_min_le_init | now apply fold_min_le].
Qed.

Lemma filter_pruned (w now later : Z) (l : list Z) :
  now <= later ->
  filter (fun t => (later - t <? w) && (t <=? later)) (filter (fun t => now - t <? w) l)
  = filter (fun t => (later - t <? w) && (t <=? later)) l.
Proof.
  intros Hle. induction l as [|t ts IH]; [reflexivity|].
  destruct (decide (Is_true (now - t <? w))) as [Y|N].
  - rewrite (filter_cons_True (fun t => Is_true (now - t <? w))) by exact Y.
    rewrite !filter_cons, IH. reflexivity.
  - rewrite (filter_cons_False (fun t => Is_true (now - t <? w))) by exact N.
    rewrite IH. rewrite filter_cons_False; [reflexivity|].
    intros Y'. apply N.
    apply Is_true_true in Y'. apply andb_true_iff in Y'. destruct Y' as [Y' _].
    apply Z.ltb_lt in Y'. apply Is_true_true. apply Z.ltb_lt. lia.
Qed.

End LimiterMethods.

(** X3.  The advised wait is never negative; when the window is non-negative
    and no stamp lies in the future it is at most one window long, and it is
    zero for an empty log. *)
Theorem wait_time_bounds (now : Limiter.time) (rl : Limiter.RateLimiter) :
  0 <= Limiter.time_window rl ->
  Forall (fun t => t <= now) (Limiter.requests rl) ->
  0 <= Limiter.get_wait_time now rl <= Limiter.window_us rl
  /\ (Limiter.requests rl = [] -> Limiter.get_wait_time now rl = 0).
Proof.
  intros Hw Hpast. unfold Limiter.get_wait_time, Limiter.window_us in *.
  destruct (Limiter.requests rl) as [|t ts] eqn:E.
  - split; [lia | reflexivity].
  - split; [|discriminate].
    destruct (oldest_request_spec t ts) as [Hin _].
    rewrite Forall_forall in Hpast.
    assert (fold_left Z.min ts t <= now).
    { apply Hpast. now apply list_elem_of_In. }
    lia.
Qed.

Lemma wait_time_bounds_witness :
  0 <= Limiter.get_wait_time 30000000 (Limiter.Build 2 60 [10000000; 20000000])
    <= Limiter.window_us (Limiter.Build 2 60 [10000000; 20000000])
  /\ (Limiter.requests (Limiter.Build 2 60 [10000000; 20000000]) = [] ->
      Limiter.get_wait_time 30000000 (Limiter.Build 2 60 [10000000; 20000000]) = 0).
Proof.
  apply (wait_time_bounds 30000000 (Limiter.Build 2 60 [10000000; 20000000])).
  - cbn. lia.
  - cbn. repeat constructor; lia.
Defined.

(** X4.  Pruning forgets nothing that still counts: the stamps
    [can_make_request] drops at [now] lie outside the trailing window of
    every later instant, so the number of calls recorded in that window is
    the same before and after the check. *)
Theorem pruning_keeps_window_count (now later : Limiter.time) (rl : Limiter.RateLimiter) :
  now <= later ->
  Limiter.admitted_in_window later (fst (Limiter.can_make_request now rl))
  = Limiter.admitted_in_window later rl.
Proof.
  intros Hle. unfold Limiter.admitted_in_window, Limiter.can_make_request, Limiter.window_us.
  cbn [fst Limiter.requests Limiter.time_window].
  now rewrite (filter_pruned _ now later _ Hle).
Qed.

Lemma pruning_keeps_window_count_witness :
  Limiter.admitted_in_window 90000000
    (fst (Limiter.can_make_request 75000000 (Limiter.Build 2 60 [10000000; 40000000])))
  = Limiter.admitted_in_window 90000000 (Limiter.Build 2 60 [10000000; 40000000]).
Proof.
  apply (pruning_keeps_window_count 75000000 90000000
           (Limiter.Build 2 60 [10000000; 40000000])).
  lia.
Defined.

(* ===================================================================== *)
(** * Properties of the validation report                                 *)
(* ===================================================================== *)

Section ValidatorReport.
Import Py Validator Report.

Lemma coherent_start : coherent (Report true [] []).
Proof. unfold coherent. cbn. tauto. Qed.

Lemma coherent_add_error (e : issue) (r : report) : coherent (add_error e r).
Proof.
  unfold coherent, add_error. cbn. split; [discriminate|].
  intros H. now apply app_nil in H as [_ H].
Qed.

Lemma coherent_add_warning (w : issue) (r : report) :
  coherent r -> coherent (add_warning w r).
Proof. unfold coherent, add_warning. cbn. auto. Qed.

Lemma coherent_if (b : bool) (x y : report) :
  coherent x -> coherent y -> coherent (if b then x else y).
Proof. now destruct b. Qed.

Lemma coherent_foldl {A} (step : report -> A -> report) (l : list A) (r : report) :
  (forall r a, coherent r -> coherent (step r a)) ->
  coherent r -> coherent (foldl step r l).
Proof.
  intros H. revert r. induction l as [|a l IH]; intros r Hr; [exact Hr|].
  cbn [foldl]. apply IH. now apply H.
Qed.

Lemma coherent_price_anomalies dev d r :
  coherent r -> coherent (_check_price_anomalies dev d r).
Proof.
  intros H. unfold _check_price_anomalies. cbv zeta.
  repeat first [apply coherent_if | apply coherent_add_warning | exact H].
Qed.

Lemma coherent_volume_anomalies d r :
  coherent r -> coherent (_check_volume_anomalies d r).
Proof.
  intros H. unfold _check_volume_anomalies. cbv zeta.
  repeat first [apply coherent_if | apply coherent_add_warning | exact H].
Qed.

Lemma coherent_time_series d r :
  coherent r -> coherent (_check_time_series d r).
Proof.
  intros H. unfold _check_time_series. cbv zeta.
  repeat first [apply coherent_add_error | apply coherent_if
               | apply coherent_add_warning | exact H].
Qed.

End ValidatorReport.

(** X5.  In the report of [validate_ohlcv_data] the verdict and the error
    list agree: [is_valid] is [True] exactly when [errors] is empty,
    whatever the series. *)
Theorem report_valid_iff_no_errors (max_price_deviation : float) (data : Py.frame) :
  Validator.is_valid (Validator.validate_ohlcv_data max_price_deviation data) = true
  <-> Validator.errors (Validator.validate_ohlcv_data max_price_deviation data) = [].
Proof.
  change (Report.coherent (Validator.validate_ohlcv_data max_price_deviation data)).
  unfold Validator.validate_ohlcv_data. cbv zeta.
  destruct (Py.empty data); [apply coherent_add_error|].
  destruct (filter _ Validator.required_columns); [|apply coherent_add_error].
  destruct (Validator.convert data) as [d|]; [|apply coherent_add_error].
  apply coherent_time_series, coherent_volume_anomalies, coherent_price_anomalies.
  apply coherent_foldl;
    [intros r a Hr; apply coherent_if; [now apply coherent_add_warning|exact Hr]|].
  apply coherent_foldl;
    [intros r a Hr; apply coherent_if; [now apply coherent_add_warning|exact Hr]|].
  assert (H0 : Report.coherent
                 (foldl (fun r (p : string * list float) =>
                           if existsb (fun x => (x <=? 0)%float) p.2
                           then Validator.add_error (Validator.NonPositive p.1) r else r)
                        (Validator.Report true [] [])
                        [("Open", Validator.Open d); ("High", Validator.High d);
                         ("Low", Validator.Low d); ("Close", Validator.Close d)])).
  { apply coherent_foldl; [|apply coherent_start].
    intros r a Hr. apply coherent_if; [apply coherent_add_error|exact Hr]. }
  repeat first [exact H0 | apply coherent_add_error | apply coherent_if].
Qed.
